(** * combined_server.py: the static responder and the proxy forwarder

    A shallow embedding of [CombinedHandler] (src/combined_server.py).

    Python [str] values that travel over the wire (request line, header
    names and values, reason phrases) are decoded by the standard library
    as ISO-8859-1, so a character is one octet and a [str] is modelled as
    a Rocq [string].  [bytes] values are modelled as [string] as well.
    Python [int] is [Z]. *)

From Stdlib Require Import String Ascii List ZArith Lia Bool.
From Stdlib Require Import DecimalString.
Import ListNotations.

Local Open Scope list_scope.
Local Open Scope string_scope.

(** ** Python string primitives used by the handler *)

Module PyStr.

(** [s.startswith(p)] *)
Definition startswith (s p : string) : bool := String.prefix p s.

(** [s[n:]] for [0 <= n] *)
Fixpoint drop (n : nat) (s : string) : string :=
  match n, s with
  | O, _ => s
  | S _, EmptyString => EmptyString
  | S n', String _ s' => drop n' s'
  end.

(** [s.endswith(p)] *)
Definition endswith (s p : string) : bool :=
  (String.length p <=? String.length s)%nat
  && String.eqb (drop (String.length s - String.length p) s) p.

(** [s.lstrip(c)] for a one-character argument: every leading [c] goes. *)
Fixpoint lstrip (c : ascii) (s : string) : string :=
  match s with
  | EmptyString => EmptyString
  | String a s' => if Ascii.eqb a c then lstrip c s' else s
  end.

(** [s.rstrip(c)] for a one-character argument: every trailing [c] goes. *)
Fixpoint rstrip (c : ascii) (s : string) : string :=
  match s with
  | EmptyString => EmptyString
  | String a s' =>
      match rstrip c s' with
      | EmptyString => if Ascii.eqb a c then EmptyString else String a EmptyString
      | r => String a r
      end
  end.

(** [c * n]: the character [c] repeated [n] times. *)
Fixpoint replicate (n : nat) (c : ascii) : string :=
  match n with
  | O => EmptyString
  | S n' => String c (replicate n' c)
  end.

(** [str.lower] on one ISO-8859-1 character: A-Z, and the accented
    capitals U+00C0..U+00DE except the multiplication sign U+00D7. *)
Definition lower_char (a : ascii) : ascii :=
  let n := nat_of_ascii a in
  if ((65 <=? n) && (n <=? 90))%nat then ascii_of_nat (n + 32)
  else if ((192 <=? n) && (n <=? 222) && negb (n =? 215))%nat
       then ascii_of_nat (n + 32)
  else a.

(** [s.lower()] *)
Fixpoint lower (s : string) : string :=
  match s with
  | EmptyString => EmptyString
  | String a s' => String (lower_char a) (lower s')
  end.

(** Truthiness of a [str]: the empty string is falsy. *)
Definition truthy (s : string) : bool := negb (String.eqb s "").

(** [str(n)] for an [int]. *)
Definition str_of_int (z : Z) : string := NilZero.string_of_int (Z.to_int z).

(** [sep.join(l)] *)
Fixpoint join (sep : string) (l : list string) : string :=
  match l with
  | [] => ""
  | [x] => x
  | x :: rest => x ++ sep ++ join sep rest
  end.

(** The last character of a string, if any. *)
Fixpoint last_char (s : string) : option ascii :=
  match s with
  | EmptyString => None
  | String a EmptyString => Some a
  | String _ s' => last_char s'
  end.

(** The first character of a string, if any. *)
Definition first_char (s : string) : option ascii :=
  match s with
  | EmptyString => None
  | String a _ => Some a
  end.

End PyStr.

(** ** [json.dumps] on the values the handler serialises

    Default options: [ensure_ascii=True], separators [", "] and [": "].
    The output is pure ASCII, so the following [.encode()] leaves it as is. *)

Module Json.

#[warnings="-register-all"]
Inductive json : Type :=
| JStr (s : string)
| JInt (z : Z)
| JDict (items : list (string * json)).

Definition dquote : ascii := ascii_of_nat 34.
Definition backslash : ascii := ascii_of_nat 92.

Definition hex_digit (n : nat) : ascii :=
  match n with
  | 0 => "0" | 1 => "1" | 2 => "2" | 3 => "3" | 4 => "4"
  | 5 => "5" | 6 => "6" | 7 => "7" | 8 => "8" | 9 => "9"
  | 10 => "a" | 11 => "b" | 12 => "c" | 13 => "d" | 14 => "e"
  | _ => "f"
  end%char.

(** One character of [py_encode_basestring_ascii]: the short escapes, the
    printable range [' '..'~'] verbatim, and [\u00XX] for the rest. *)
Definition escape_char (a : ascii) : string :=
  let n := nat_of_ascii a in
  if (n =? 34)%nat then String backslash (String dquote "")
  else if (n =? 92)%nat then String backslash (String backslash "")
  else if (n =? 10)%nat then String backslash "n"
  else if (n =? 13)%nat then String backslash "r"
  else if (n =? 9)%nat then String backslash "t"
  else if (n =? 12)%nat then String backslash "f"
  else if (n =? 8)%nat then String backslash "b"
  else if ((32 <=? n) && (n <=? 126))%nat then String a ""
  else String backslash
         ("u00" ++ String (hex_digit (n / 16)) (String (hex_digit (n mod 16)) "")).

Fixpoint escape (s : string) : string :=
  match s with
  | EmptyString => EmptyString
  | String a s' => escape_char a ++ escape s'
  end.

Definition encode_basestring_ascii (s : string) : string :=
  String dquote (escape s ++ String dquote "").

Fixpoint dumps (j : json) : string :=
  match j with
  | JStr s => encode_basestring_ascii s
  | JInt z => PyStr.str_of_int z
  | JDict items =>
      "{" ++ PyStr.join ", "
               ((fix each (l : list (string * json)) : list string :=
                   match l with
                   | [] => []
                   | (k, v) :: t =>
                       (encode_basestring_ascii k ++ ": " ++ dumps v) :: each t
                   end) items)
          ++ "}"
  end.

End Json.

(** ** [base64.b64decode(s).decode('utf-8')] as CPython computes it

    [base64.b64decode] with its default [validate=False]: a [str] must be
    ASCII; [binascii.a2b_base64] then skips every character outside the
    alphabet and stops at the padding that completes a quad. *)

Module Base64.

(** [table_a2b_base64]: the value of a character of the alphabet. *)

Definition value (a : ascii) : option nat :=
  let n := nat_of_ascii a in
  if ((65 <=? n) && (n <=? 90))%nat then Some (n - 65)%nat
  else if ((97 <=? n) && (n <=? 122))%nat then Some (n - 71)%nat
  else if ((48 <=? n) && (n <=? 57))%nat then Some (n + 4)%nat
  else if (n =? 43)%nat then Some 62%nat
  else if (n =? 47)%nat then Some 63%nat
  else None.

(** [s.encode('ascii')] succeeds. *)
Fixpoint is_ascii (s : string) : bool :=
  match s with
  | EmptyString => true
  | String a s' => (nat_of_ascii a <? 128)%nat && is_ascii s'
  end.

(** [*bin_data++ = byte] *)
Definition put (bin : string) (byte : nat) : string :=
  bin ++ String (ascii_of_nat byte) "".

(** The loop of [binascii.a2b_base64] and what follows it, in the state
    [quad_pos], [leftchar], [pads] and the bytes written so far. *)
Fixpoint a2b_base64 (s : string) (quad_pos leftchar pads : nat) (bin : string)
  : string + string :=
  match s with
  | EmptyString =>
      match quad_pos with
      | 0 => inr bin
      | 1 =>
          inl ("Invalid base64-encoded string: number of data characters ("
                 ++ PyStr.str_of_int (Z.of_nat (String.length bin / 3 * 4 + 1))
                 ++ ") cannot be 1 more than a multiple of 4")
      | _ => inl "Incorrect padding"
      end
  | String this_ch rest =>
      if Ascii.eqb this_ch "=" then
        if (2 <=? quad_pos)%nat then
          if (4 <=? quad_pos + (pads + 1))%nat then inr bin
          else a2b_base64 rest quad_pos leftchar (pads + 1) bin
        else a2b_base64 rest quad_pos leftchar pads bin
      else
        match value this_ch with
        | None => a2b_base64 rest quad_pos leftchar pads bin
        | Some v =>
            match quad_pos with
            | 0 => a2b_base64 rest 1 v 0 bin
            | 1 => a2b_base64 rest 2 (v mod 16) 0 (put bin (leftchar * 4 + v / 16))
            | 2 => a2b_base64 rest 3 (v mod 4) 0 (put bin (leftchar * 16 + v / 4))
            | _ => a2b_base64 rest 0 0 0 (put bin (leftchar * 64 + v))
            end
        end
  end.

(** [base64.b64decode(s)] for a [str]. *)
Definition b64decode (s : string) : string + string :=
  if is_ascii s then a2b_base64 s 0 0 0 ""
  else inl "string argument should contain only ASCII characters".

End Base64.

(** [bytes.decode('utf-8')], strict.  Text has an image in the [str] model
    when all its characters are below U+0100. *)

Module Utf8.

(** The text; or text with a character from U+0100 on; or the text of the
    [UnicodeDecodeError]. *)
Inductive decoded : Type :=
| Text (s : string)
| Beyond
| Undecodable (message : string).

Definition continuation (a : ascii) : bool :=
  let n := nat_of_ascii a in ((128 <=? n) && (n <? 192))%nat.

Definition hex_byte (a : ascii) : string :=
  let n := nat_of_ascii a in
  "0x" ++ String (Json.hex_digit (n / 16)) (String (Json.hex_digit (n mod 16)) "").

Definition error_at (start : nat) (a : ascii) (reason : string) : decoded :=
  Undecodable ("'utf-8' codec can't decode byte " ++ hex_byte a
                 ++ " in position " ++ PyStr.str_of_int (Z.of_nat start) ++ ": " ++ reason).

Definition error_in (start last : nat) (reason : string) : decoded :=
  Undecodable ("'utf-8' codec can't decode bytes in position "
                 ++ PyStr.str_of_int (Z.of_nat start) ++ "-" ++ PyStr.str_of_int (Z.of_nat last) ++ ": " ++ reason).

Fixpoint decode_from (s : string) (pos : nat) (text : string) (beyond : bool)
  : decoded :=
  match s with
  | EmptyString => if beyond then Beyond else Text text
  | String c1 r1 =>
      let n1 := nat_of_ascii c1 in
      if (n1 <? 128)%nat then
        decode_from r1 (pos + 1) (text ++ String c1 "") beyond
      else if (n1 <? 194)%nat then error_at pos c1 "invalid start byte"
      else if (n1 <? 224)%nat then
        match r1 with
        | EmptyString => error_at pos c1 "unexpected end of data"
        | String c2 r2 =>
            if continuation c2 then
              let cp := ((n1 - 192) * 64 + (nat_of_ascii c2 - 128))%nat in
              decode_from r2 (pos + 2) (text ++ String (ascii_of_nat cp) "")
                (beyond || (256 <=? cp)%nat)
            else error_at pos c1 "invalid continuation byte"
        end
      else if (n1 <? 240)%nat then
        match r1 with
        | EmptyString => error_at pos c1 "unexpected end of data"
        | String c2 r2 =>
            let n2 := nat_of_ascii c2 in
            if negb (continuation c2)
               || ((n1 =? 224) && (n2 <? 160))%nat
               || ((n1 =? 237) && (160 <=? n2))%nat
            then error_at pos c1 "invalid continuation byte"
            else
              match r2 with
              | EmptyString => error_in pos (pos + 1) "unexpected end of data"
              | String c3 r3 =>
                  if continuation c3 then decode_from r3 (pos + 3) text true
                  else error_in pos (pos + 1) "invalid continuation byte"
              end
        end
      else if (n1 <? 245)%nat then
        match r1 with
        | EmptyString => error_at pos c1 "unexpected end of data"
        | String c2 r2 =>
            let n2 := nat_of_ascii c2 in
            if negb (continuation c2)
               || ((n1 =? 240) && (n2 <? 144))%nat
               || ((n1 =? 244) && (144 <=? n2))%nat
            then error_at pos c1 "invalid continuation byte"
            else
              match r2 with
              | EmptyString => error_in pos (pos + 1) "unexpected end of data"
              | String c3 r3 =>
                  if continuation c3 then
                    match r3 with
                    | EmptyString =>
                        error_in pos (pos + 2) "unexpected end of data"
                    | String c4 r4 =>
                        if continuation c4
                        then decode_from r4 (pos + 4) text true
                        else error_in pos (pos + 2) "invalid continuation byte"
                    end
                  else error_in pos (pos + 1) "invalid continuation byte"
              end
        end
      else error_at pos c1 "invalid start byte"
  end.

Definition decode (bytes : string) : decoded := decode_from bytes 0 "" false.

End Utf8.

(** [base64.b64decode(s).decode('utf-8')]: the exception's text, or the
    text; [None] when the text has no image in the [str] model. *)
Definition cpython_b64decode_utf8 (s : string) : option (string + string) :=
  match Base64.b64decode s with
  | inl e => Some (inl e)
  | inr bytes =>
      match Utf8.decode bytes with
      | Utf8.Undecodable e => Some (inl e)
      | Utf8.Text text => Some (inr text)
      | Utf8.Beyond => None
      end
  end.

(** ** Data of one request-response cycle *)

(** A header line: name and value. *)
Definition header : Type := string * string.

(** [self.headers.get(name)]: header names compare case-insensitively and
    the first matching line wins. *)
Fixpoint headers_get (hs : list header) (name : string) : option string :=
  match hs with
  | [] => None
  | (k, v) :: rest =>
      if String.eqb (PyStr.lower k) (PyStr.lower name) then Some v
      else headers_get rest name
  end.

(** [os.environ.get(key)]: keys compare exactly. *)
Fixpoint environ_get (environ : list (string * string)) (key : string)
  : option string :=
  match environ with
  | [] => None
  | (k, v) :: rest =>
      if String.eqb k key then Some v else environ_get rest key
  end.

(** The request methods for which [CombinedHandler] defines a [do_*]
    method; the base class answers every other method itself. *)
Inductive Command : Type := OPTIONS | GET | POST.

Definition Command_eqb (a b : Command) : bool :=
  match a, b with
  | OPTIONS, OPTIONS | GET, GET | POST, POST => true
  | _, _ => false
  end.

(** The handler's view of the incoming request: [self.command],
    [self.path], [self.headers] and the bytes waiting on [self.rfile]. *)
Record Request : Type := mkRequest {
  command : Command;
  path : string;
  headers : list header;
  rfile : string
}.

(** What surrounds the process: [os.environ] and the content of
    [webchat.html] next to the script, when the file exists. *)
Record Host : Type := mkHost {
  environ : list (string * string);
  webchat_html : option string
}.

(** The [urllib.request.Request] the handler builds. *)
Record Outbound : Type := mkOutbound {
  full_url : string;
  data : option string;
  out_headers : list header;
  method : string
}.

(** The ways [urllib.request.urlopen] (together with reading the answer)
    can end, as the handler's [try] statement tells them apart. *)
Inductive Upstream : Type :=
| Answered (status : Z) (hdrs : list header) (body : string)
| HTTPError (code : Z) (reason : string)
| URLError (reason : string)
| OtherError (description : string).

(** What the handler asks of its base class: either [self.send_error], or
    [self.send_response] followed by the [self.send_header] calls,
    [self.end_headers] and the bytes written to [self.wfile]. *)
Inductive Reply : Type :=
| SendError (code : Z) (message : string)
| Send (code : Z) (hdrs : list header) (body : string).

(** The response as it leaves the base class. *)
Record Response : Type := mkResponse {
  status : Z;
  status_message : option string;
  response_headers : list header;
  response_body : string
}.

(** The parts of the Python runtime the handler calls and this file does
    not define: a failing call yields [inl] of the exception's text. *)
Class PyRuntime : Type := {
  (** [base64.b64decode(s).decode('utf-8')] *)
  b64decode_utf8 : string -> string + string;
  (** [int(s)] on a [str] *)
  int_of_str : string -> string + Z;
  (** [self.version_string()] *)
  version_string : string;
  (** [self.date_time_string()] *)
  date_time_string : string;
  (** the HTML page [send_error] renders for a code and a message *)
  error_page : Z -> string -> string;
  (** [urllib.request.Request(url, ...)]: the exception's text when the
      constructor raises *)
  request_error : string -> option string;
  (** [self.rfile.read(n)] for a positive [n]: the exception's text when
      the call raises *)
  read_error : Z -> option string;
  (** decoding the empty string succeeds and gives the empty string *)
  b64decode_utf8_empty : b64decode_utf8 "" = inr "";
  (** the decoder is CPython's wherever the text has an image *)
  b64decode_utf8_cpython :
    forall s r, cpython_b64decode_utf8 s = Some r -> b64decode_utf8 s = r;
  (** and gives some text where it has none *)
  b64decode_utf8_beyond :
    forall s, cpython_b64decode_utf8 s = None ->
              exists text, b64decode_utf8 s = inr text
}.

(** ** The handler *)

(** [send_cors_headers] *)
Definition send_cors_headers : list header :=
  [ ("Access-Control-Allow-Origin", "*");
    ("Access-Control-Allow-Methods", "GET, POST, OPTIONS");
    ("Access-Control-Allow-Headers",
     "Content-Type, Authorization, X-API-Key, X-OpenWebUI-URL") ].

(** [do_OPTIONS] *)
Definition do_OPTIONS : Reply := Send 200 send_cors_headers "".

(** [serve_webchat_file] *)
Definition serve_webchat_file (h : Host) : Reply :=
  match webchat_html h with
  | Some content =>
      Send 200 (("Content-type", "text/html") :: send_cors_headers) content
  | None => SendError 404 "webchat.html not found"
  end.

(** [if x:] on an optional [str]: [None] and the empty string are falsy;
    a truthy value is handed to the branch. *)
Definition truthy (o : option string) : option string :=
  match o with
  | Some s => if PyStr.truthy s then Some s else None
  | None => None
  end.

(** The fixed user agent of the outbound request. *)
Definition user_agent : string :=
  "Mozilla/5.0 (Windows NT 10.0; Win64; x64) AppleWebKit/537.36 (KHTML, like Gecko) Chrome/91.0.4472.124 Safari/537.36".

(** The [headers] dictionary of the outbound request (lines 126-130). *)
Definition proxy_headers (api_key : string) : list header :=
  [ ("Authorization", "Bearer " ++ api_key);
    ("Content-Type", "application/json");
    ("User-Agent", user_agent) ].

(** [target_url] (lines 132-137). *)
Definition target_url (openwebui_url api_endpoint : string) : string :=
  if PyStr.endswith api_endpoint "chat/completions"
  then PyStr.rstrip "/" openwebui_url ++ "/api/v1/" ++ PyStr.lstrip "/" api_endpoint
  else PyStr.rstrip "/" openwebui_url ++ "/" ++ PyStr.lstrip "/" api_endpoint.

(** The hop-by-hop test of the relay loop (line 177). *)
Definition hop_by_hop (name : string) : bool :=
  existsb (String.eqb (PyStr.lower name)) ["connection"; "transfer-encoding"].

(** [error_response] (lines 194-200). *)
Definition error_response (code : Z) (reason : string) : Json.json :=
  Json.JDict
    [ ("error",
       Json.JDict
         [ ("message", Json.JStr ("Request failed: " ++ reason));
           ("type", Json.JStr "http_error");
           ("code", Json.JInt code) ]) ].

(** The body of the [with] statement and the three [except] clauses
    (lines 166-212): what is sent back for each outcome of the call. *)
Definition relay (res : Upstream) : Reply :=
  match res with
  | Answered response_status response_headers response_data =>
      Send response_status
           (filter (fun hv => negb (hop_by_hop (fst hv))) response_headers
              ++ send_cors_headers)%list
           response_data
  | HTTPError code reason =>
      Send code
           (("Content-Type", "application/json") :: send_cors_headers)
           (Json.dumps (error_response code reason))
  | URLError reason => SendError 500 ("URL Error: " ++ reason)
  | OtherError description =>
      SendError 500 ("Request failed with error: " ++ description)
  end.

(** [self.rfile.read(n)] *)
Definition rfile_read (n : Z) (stream : string) : string :=
  String.substring 0 (Z.to_nat n) stream.

Section Handler.

Context {rt : PyRuntime}.

(** Credential resolution (lines 97-114): the token, or the reply that
    ends the request. *)
Definition resolve_api_key (h : Host) (req : Request) : Reply + string :=
  let server_api_key := environ_get (environ h) "OPENWEBUI_API_KEY" in
  match truthy server_api_key with
  | Some api_key => inr api_key
  | None =>
      let encoded_api_key := headers_get (headers req) "X-API-Key" in
      match truthy encoded_api_key with
      | None =>
          inl (SendError 400
                 "Missing X-API-Key header or server-side OPENWEBUI_API_KEY environment variable")
      | Some encoded =>
          match b64decode_utf8 encoded with
          | inr api_key => inr api_key
          | inl e => inl (SendError 400 ("Invalid API key encoding: " ++ e))
          end
      end
  end.

(** Target resolution (lines 95 and 116-123). *)
Definition resolve_openwebui_url (h : Host) (req : Request) : Reply + string :=
  let openwebui_url := headers_get (headers req) "X-OpenWebUI-URL" in
  match truthy openwebui_url with
  | Some u => inr u
  | None =>
      let default_openwebui_url :=
        environ_get (environ h) "DEFAULT_OPENWEBUI_URL" in
      match truthy default_openwebui_url with
      | Some u => inr u
      | None =>
          inl (SendError 400
                 "Missing X-OpenWebUI-URL header or DEFAULT_OPENWEBUI_URL environment variable")
      end
  end.

(** Building the [urllib.request.Request] (lines 143-161); an exception
    of [int(...)], of [self.rfile.read(...)] or of the constructor is
    caught by the last [except] clause (lines 209-212). *)
Definition build_request (req : Request) (target : string)
    (hdrs : list header) : Reply + Outbound :=
  let failed (e : string) : Reply + Outbound :=
    inl (SendError 500 ("Request failed with error: " ++ e)) in
  if Command_eqb (command req) POST then
    let content_length :=
      match headers_get (headers req) "Content-Length" with
      | Some s => int_of_str s
      | None => inr 0%Z
      end in
    match content_length with
    | inl e => failed e
    | inr n =>
        let read : string + string :=
          if (0 <? n)%Z then
            match read_error n with
            | Some e => inl e
            | None => inr (rfile_read n (rfile req))
            end
          else inr "" in
        match read with
        | inl e => failed e
        | inr post_data =>
            match request_error target with
            | Some e => failed e
            | None => inr (mkOutbound target (Some post_data) hdrs "POST")
            end
        end
    end
  else
    match request_error target with
    | Some e => failed e
    | None => inr (mkOutbound target None hdrs "GET")
    end.

(** Everything [handle_proxy_request] does before the call to [urlopen]:
    either the reply that ends the request, or the request to send. *)
Definition prepare (h : Host) (req : Request) : Reply + Outbound :=
  if PyStr.startswith (path req) "/proxy/" then
    let api_endpoint := PyStr.drop (String.length "/proxy/") (path req) in
    match resolve_api_key h req with
    | inl reply => inl reply
    | inr api_key =>
        match resolve_openwebui_url h req with
        | inl reply => inl reply
        | inr openwebui_url =>
            build_request req (target_url openwebui_url api_endpoint)
                          (proxy_headers api_key)
        end
    end
  else
    inl (SendError 400 "Invalid proxy path").

(** [handle_proxy_request]: the reply, and the requests sent upstream. *)
Definition handle_proxy_request (urlopen : Outbound -> Upstream)
    (h : Host) (req : Request) : Reply * list Outbound :=
  match prepare h req with
  | inl reply => (reply, [])
  | inr out => (relay (urlopen out), [out])
  end.

(** [do_GET] *)
Definition do_GET (urlopen : Outbound -> Upstream) (h : Host) (req : Request)
  : Reply * list Outbound :=
  if String.eqb (path req) "/" || String.eqb (path req) "/webchat.html" then
    (serve_webchat_file h, [])
  else if PyStr.startswith (path req) "/proxy/" then
    handle_proxy_request urlopen h req
  else
    (Send 404 [] "Not Found", []).

(** [do_POST] *)
Definition do_POST (urlopen : Outbound -> Upstream) (h : Host) (req : Request)
  : Reply * list Outbound :=
  if PyStr.startswith (path req) "/proxy/" then
    handle_proxy_request urlopen h req
  else
    (Send 404 [] "Not Found", []).

(** The base class calls [do_<command>]. *)
Definition handle (urlopen : Outbound -> Upstream) (h : Host) (req : Request)
  : Reply * list Outbound :=
  match command req with
  | OPTIONS => (do_OPTIONS, [])
  | GET => do_GET urlopen h req
  | POST => do_POST urlopen h req
  end.

(** The base class's [send_response]: the two headers it always adds. *)
Definition send_response_headers : list header :=
  [ ("Server", version_string); ("Date", date_time_string) ].

(** The base class's side of a reply: [send_response] adds [Server] and
    [Date]; [send_error] puts the message on the status line, closes the
    connection and, for the codes that carry a body, sends the error page. *)
Definition render (r : Reply) : Response :=
  match r with
  | Send code hdrs body =>
      mkResponse code None (send_response_headers ++ hdrs)%list body
  | SendError code message =>
      if ((200 <=? code) && negb (existsb (Z.eqb code) [204; 205; 304]))%Z then
        let body := error_page code message in
        mkResponse code (Some message)
          (send_response_headers ++
             [ ("Connection", "close");
               ("Content-Type", "text/html;charset=utf-8");
               ("Content-Length",
                PyStr.str_of_int (Z.of_nat (String.length body))) ])%list
          body
      else
        mkResponse code (Some message)
          (send_response_headers ++ [ ("Connection", "close") ])%list ""
  end.

(** The response a client receives. *)
Definition respond (urlopen : Outbound -> Upstream) (h : Host) (req : Request)
  : Response :=
  render (fst (handle urlopen h req)).

(** The requests sent upstream while the request is handled. *)
Definition outbound_calls (urlopen : Outbound -> Upstream) (h : Host)
    (req : Request) : list Outbound :=
  snd (handle urlopen h req).

End Handler.

(** ** Vocabulary of the properties *)

(** A cross-origin (CORS) response header, by its name. *)
Definition cross_origin (name : string) : bool :=
  PyStr.startswith (PyStr.lower name) "access-control-".

(** The header lines of [hs] whose name is not [name], case-insensitively. *)
Definition without_header (name : string) (hs : list header) : list header :=
  filter (fun kv => negb (String.eqb (PyStr.lower (fst kv)) (PyStr.lower name))) hs.

(** A JSON string literal of plain text. *)
Definition quoted (s : string) : string :=
  String Json.dquote (s ++ String Json.dquote "").

(** *** The URL construction as the specification words it *)

(** Removes one trailing [c], if there is one. *)
Fixpoint trim_one_trailing (c : ascii) (s : string) : string :=
  match s with
  | EmptyString => EmptyString
  | String a EmptyString => if Ascii.eqb a c then EmptyString else s
  | String a s' => String a (trim_one_trailing c s')
  end.

(** Removes one leading [c], if there is one. *)
Definition trim_one_leading (c : ascii) (s : string) : string :=
  match s with
  | EmptyString => EmptyString
  | String a s' => if Ascii.eqb a c then s' else s
  end.

(** The target URL with exactly one slash trimmed on either side. *)
Definition spec_target_url (base sub_path : string) : string :=
  trim_one_trailing "/" base
    ++ (if PyStr.endswith sub_path "chat/completions" then "/api/v1/" else "/")
    ++ trim_one_leading "/" sub_path.

(** *** The error object as the specification words it *)

(** The message is the upstream reason phrase itself. *)
Definition spec_error_response (code : Z) (reason : string) : Json.json :=
  Json.JDict
    [ ("error",
       Json.JDict
         [ ("message", Json.JStr reason);
           ("type", Json.JStr "http_error");
           ("code", Json.JInt code) ]) ].

(** ** Loading [.env] without python-dotenv (lines 24-32)

    The [except ImportError] branch.  The file is read as text, one line
    per iteration; the characters are those of the [str] model above.  The
    assignment [os.environ[key] = value] is the POSIX one: it raises for
    an empty name and for a NUL character in the name or in the value. *)

Module DotEnv.

(** [str.isspace] on one character below U+0100. *)
Definition isspace (a : ascii) : bool :=
  let n := nat_of_ascii a in
  (((9 <=? n) && (n <=? 13)) || ((28 <=? n) && (n <=? 32))
   || (n =? 133) || (n =? 160))%nat.

Fixpoint lstrip_ws (s : string) : string :=
  match s with
  | EmptyString => EmptyString
  | String a s' => if isspace a then lstrip_ws s' else s
  end.

Fixpoint rstrip_ws (s : string) : string :=
  match s with
  | EmptyString => EmptyString
  | String a s' =>
      match rstrip_ws s' with
      | EmptyString => if isspace a then EmptyString else String a EmptyString
      | r => String a r
      end
  end.

(** [s.strip()] *)
Definition strip (s : string) : string := rstrip_ws (lstrip_ws s).

(** [c in s] for a one-character [c]. *)
Fixpoint contains (c : ascii) (s : string) : bool :=
  match s with
  | EmptyString => false
  | String a s' => Ascii.eqb a c || contains c s'
  end.

(** [s.split(c, 1)] for a string that contains [c]: what is before the
    first [c] and what is after it. *)
Fixpoint split1 (c : ascii) (s : string) : string * string :=
  match s with
  | EmptyString => (EmptyString, EmptyString)
  | String a s' =>
      if Ascii.eqb a c then (EmptyString, s')
      else let (before, rest) := split1 c s' in (String a before, rest)
  end.

Definition nul : ascii := ascii_of_nat 0.

(** [os.environ[key] = value]; [None] when the assignment raises. *)
Definition environ_setitem (environ : list (string * string))
    (key value : string) : option (list (string * string)) :=
  if String.eqb key "" || contains nul key || contains nul value then None
  else Some ((key, value)
               :: filter (fun kv => negb (String.eqb (fst kv) key)) environ).

(** Lines 29-31: the stripped key and value of a line that assigns. *)
Definition assignment (line : string) : option (string * string) :=
  let line := strip line in
  if PyStr.truthy line && negb (PyStr.startswith line "#") && contains "=" line
  then let (key, value) := split1 "=" line in Some (strip key, strip value)
  else None.

(** One turn of the loop of lines 28-32. *)
Definition load_line (environ : list (string * string)) (line : string)
  : option (list (string * string)) :=
  match assignment line with
  | Some (key, value) => environ_setitem environ key value
  | None => Some environ
  end.

(** The loop of lines 28-32; an assignment that raises ends it. *)
Fixpoint load_lines (lines : list string) (environ : list (string * string))
  : option (list (string * string)) :=
  match lines with
  | [] => Some environ
  | line :: rest =>
      match load_line environ line with
      | Some environ' => load_lines rest environ'
      | None => None
      end
  end.

(** Lines 25-32: nothing is loaded when the file does not exist. *)
Definition load_env_file (file : option (list string))
    (environ : list (string * string)) : option (list (string * string)) :=
  match file with
  | Some lines => load_lines lines environ
  | None => Some environ
  end.

End DotEnv.

(** *** Base64 as the specification words it

    A value is valid base64 when it is made of quads of characters of the
    alphabet, the last one possibly ending in one or two padding
    characters. *)

Module Rfc4648.

Definition b64_value (a : ascii) : option nat :=
  let n := nat_of_ascii a in
  if ((65 <=? n) && (n <=? 90))%nat then Some (n - 65)%nat
  else if ((97 <=? n) && (n <=? 122))%nat then Some (n - 71)%nat
  else if ((48 <=? n) && (n <=? 57))%nat then Some (n + 4)%nat
  else if (n =? 43)%nat then Some 62%nat
  else if (n =? 47)%nat then Some 63%nat
  else None.

Definition is_pad (a : ascii) : bool := Ascii.eqb a "=".

Fixpoint b64_bytes (s : string) : option string :=
  match s with
  | EmptyString => Some EmptyString
  | String a (String b (String c (String d rest))) =>
      match b64_value a, b64_value b with
      | Some x, Some y =>
          let b1 := ascii_of_nat (x * 4 + y / 16) in
          match b64_value c with
          | None =>
              if is_pad c && is_pad d && String.eqb rest ""
              then Some (String b1 "") else None
          | Some z =>
              let b2 := ascii_of_nat ((y mod 16) * 16 + z / 4) in
              match b64_value d with
              | None =>
                  if is_pad d && String.eqb rest ""
                  then Some (String b1 (String b2 "")) else None
              | Some w =>
                  let b3 := ascii_of_nat ((z mod 4) * 64 + w) in
                  match b64_bytes rest with
                  | Some tail => Some (String b1 (String b2 (String b3 tail)))
                  | None => None
                  end
              end
          end
      | _, _ => None
      end
  | _ => None
  end.

Fixpoint all_ascii7 (s : string) : bool :=
  match s with
  | EmptyString => true
  | String a s' => (nat_of_ascii a <? 128)%nat && all_ascii7 s'
  end.

Definition valid (s : string) : bool :=
  match b64_bytes s with
  | Some _ => true
  | None => false
  end.

End Rfc4648.

(** ** A runtime for the examples

    The decoder is CPython's; a decoded key with a character from U+0100
    on is kept as the bytes it came in.  [int] reads plain decimal digits.
    The [Request] constructor refuses a URL without scheme, as
    [urllib.request] does, and a read of 2^63 bytes or more overflows.
    Version and date are fixed strings.  The theorems below hold for every
    runtime; this one instantiates them on concrete requests. *)

Module Sample.

Definition decode_key (s : string) : string + string :=
  match cpython_b64decode_utf8 s with
  | Some r => r
  | None => Base64.b64decode s
  end.

Fixpoint digits (s : string) (acc : Z) : option Z :=
  match s with
  | EmptyString => Some acc
  | String a s' =>
      let n := nat_of_ascii a in
      if ((48 <=? n) && (n <=? 57))%nat
      then digits s' (10 * acc + Z.of_nat (n - 48))%Z
      else None
  end.

Definition parse_int (s : string) : string + Z :=
  match s with
  | EmptyString => inl "invalid literal for int() with base 10: ''"
  | _ =>
      match digits s 0%Z with
      | Some z => inr z
      | None => inl ("invalid literal for int() with base 10: '" ++ s ++ "'")
      end
  end.

Definition page (code : Z) (message : string) : string :=
  "<h1>Error response</h1><p>Error code: " ++ PyStr.str_of_int code
    ++ "</p><p>Message: " ++ message ++ ".</p>".

(** [repr(s)] for a [str]. *)
Definition printable (a : ascii) : bool :=
  let n := nat_of_ascii a in
  (((32 <=? n) && (n <=? 126)) || ((161 <=? n) && negb (n =? 173)))%nat.

Definition repr_char (quote a : ascii) : string :=
  let n := nat_of_ascii a in
  if (n =? 92)%nat then String Json.backslash (String Json.backslash "")
  else if Ascii.eqb a quote then String Json.backslash (String quote "")
  else if (n =? 9)%nat then String Json.backslash "t"
  else if (n =? 10)%nat then String Json.backslash "n"
  else if (n =? 13)%nat then String Json.backslash "r"
  else if printable a then String a ""
  else String Json.backslash
         ("x" ++ String (Json.hex_digit (n / 16))
                   (String (Json.hex_digit (n mod 16)) "")).

Fixpoint repr_body (quote : ascii) (s : string) : string :=
  match s with
  | EmptyString => EmptyString
  | String a s' => repr_char quote a ++ repr_body quote s'
  end.

Definition repr (s : string) : string :=
  let quote :=
    if DotEnv.contains "'" s && negb (DotEnv.contains Json.dquote s)
    then Json.dquote else "'"%char in
  String quote (repr_body quote s ++ String quote "").

(** [s[:-1]] *)
Fixpoint drop_last (s : string) : string :=
  match s with
  | EmptyString => EmptyString
  | String a EmptyString => EmptyString
  | String a s' => String a (drop_last s')
  end.

(** [urllib.parse.unwrap] *)
Definition unwrap (url : string) : string :=
  let url := DotEnv.strip url in
  let url :=
    match PyStr.first_char url, PyStr.last_char url with
    | Some first, Some last =>
        if Ascii.eqb first "<" && Ascii.eqb last ">"
        then DotEnv.strip (drop_last (PyStr.drop 1 url)) else url
    | _, _ => url
    end in
  if PyStr.startswith url "URL:" then DotEnv.strip (PyStr.drop 4 url) else url.

(** [url.rpartition('#')]: the part before the last ['#'], when there is one. *)
Fixpoint before_last_hash (url : string) : option string :=
  match url with
  | EmptyString => None
  | String a rest =>
      match before_last_hash rest with
      | Some before => Some (String a before)
      | None => if Ascii.eqb a "#" then Some EmptyString else None
      end
  end.

(** The pattern of [urllib.parse._splittype] matches: a colon after one
    character or more, none of them a slash or a colon. *)
Fixpoint colon_ends_scheme (url : string) (seen : bool) : bool :=
  match url with
  | EmptyString => false
  | String a rest =>
      if Ascii.eqb a ":" then seen
      else if Ascii.eqb a "/" then false
      else colon_ends_scheme rest true
  end.

(** The text of the [ValueError] of [urllib.request.Request(url)]. *)
Definition request_url_error (url : string) : option string :=
  let url := unwrap url in
  let parsed :=
    match before_last_hash url with
    | Some before => before
    | None => url
    end in
  let full_url :=
    match before_last_hash url with
    | Some before =>
        if String.eqb (PyStr.drop (String.length before + 1) url) ""
        then before else url
    | None => url
    end in
  if colon_ends_scheme parsed false then None
  else Some ("unknown url type: " ++ repr full_url).

(** The text of the [OverflowError] of a read that does not fit [ssize_t]. *)
Definition rfile_read_error (n : Z) : option string :=
  if (2 ^ 63 <=? n)%Z
  then Some "cannot fit 'int' into an index-sized integer" else None.

Definition decode_key_cpython (s : string) (r : string + string) :
  cpython_b64decode_utf8 s = Some r -> decode_key s = r.
Proof. unfold decode_key. now intros ->. Qed.

Definition decode_key_beyond (s : string) :
  cpython_b64decode_utf8 s = None -> exists text, decode_key s = inr text.
Proof.
  unfold decode_key, cpython_b64decode_utf8. intros H. rewrite H.
  revert H. unfold cpython_b64decode_utf8.
  destruct (Base64.b64decode s) as [e|bytes]; [discriminate|]. eauto.
Qed.

#[export] Instance runtime : PyRuntime := {|
  b64decode_utf8 := decode_key;
  int_of_str := parse_int;
  version_string := "BaseHTTP/0.6 Python/3.11.4";
  date_time_string := "Tue, 03 Nov 2026 10:00:00 GMT";
  error_page := page;
  request_error := request_url_error;
  read_error := rfile_read_error;
  b64decode_utf8_empty := eq_refl;
  b64decode_utf8_cpython := decode_key_cpython;
  b64decode_utf8_beyond := decode_key_beyond
|}.

(** A host with a server-wide token and a default upstream. *)
Definition keyed_host : Host :=
  mkHost [ ("OPENWEBUI_API_KEY", "sk-server");
           ("DEFAULT_OPENWEBUI_URL", "https://host/") ]
         (Some "<html></html>").

(** A host with neither a token nor a default upstream. *)
Definition bare_host : Host := mkHost [] None.

(** An upstream that answers every call with 200 and three headers. *)
Definition upstream_ok (_ : Outbound) : Upstream :=
  Answered 200
    [ ("Content-Type", "application/json");
      ("connection", "keep-alive");
      ("Transfer-Encoding", "chunked") ]
    "{}".

(** An upstream that answers every call with 429. *)
Definition upstream_429 (_ : Outbound) : Upstream :=
  HTTPError 429 "Too Many Requests".

(** A GET for the model list, with the default upstream. *)
Definition models_request : Request :=
  mkRequest GET "/proxy/models" [] "".

(** A GET for the model list whose base URL header ends with two slashes. *)
Definition models_request_two_slashes : Request :=
  mkRequest GET "/proxy/models" [ ("X-OpenWebUI-URL", "https://host//") ] "".

(** A POST to the chat endpoint with a small body and extra headers. *)
Definition chat_request (extra : list header) : Request :=
  mkRequest POST "/proxy/chat/completions"
    (("Content-Length", "13") :: extra)
    "{'model':'m'} and more".

End Sample.

(** ** More vocabulary *)

(** Every character of [s] is white space. *)
Fixpoint all_space (s : string) : bool :=
  match s with
  | EmptyString => true
  | String a s' => DotEnv.isspace a && all_space s'
  end.

(** [s] neither starts nor ends with white space. *)
Definition trimmed (s : string) : bool :=
  match PyStr.first_char s with
  | Some a => negb (DotEnv.isspace a)
  | None => true
  end
  && match PyStr.last_char s with
     | Some a => negb (DotEnv.isspace a)
     | None => true
     end.

(** The value the lines of a file give to [key]: that of the last line
    that assigns it. *)
Fixpoint assigned (key : string) (lines : list string) (before : option string)
  : option string :=
  match lines with
  | [] => before
  | line :: rest =>
      match DotEnv.assignment line with
      | Some (k, v) =>
          if String.eqb k key then assigned key rest (Some v)
          else assigned key rest before
      | None => assigned key rest before
      end
  end.

(** Every character of [s] is printable ASCII, from the space to the tilde. *)
Fixpoint all_printable (s : string) : bool :=
  match s with
  | EmptyString => true
  | String a s' =>
      ((32 <=? nat_of_ascii a) && (nat_of_ascii a <=? 126))%nat
      && all_printable s'
  end.

(** Two header sets with the same values under names equal up to letter
    case, line by line. *)
Definition same_up_to_case (hs1 hs2 : list header) : Prop :=
  Forall2 (fun a b => PyStr.lower (fst a) = PyStr.lower (fst b)
                      /\ snd a = snd b) hs1 hs2.

(** The lines of a header set under the name [name], in any letter case. *)
Definition lines_named (name : string) (hs : list header) : list header :=
  filter (fun kv => String.eqb (PyStr.lower (fst kv)) (PyStr.lower name)) hs.

(** More sample data. *)
Module Sample2.

(** An upstream that cannot be reached. *)
Definition upstream_refused (_ : Outbound) : Upstream :=
  URLError "[Errno 111] Connection refused".

(** A host with a default upstream only. *)
Definition open_host : Host :=
  mkHost [ ("DEFAULT_OPENWEBUI_URL", "https://host") ] (Some "<html></html>").

(** The lines of a small [.env] file. *)
Definition env_lines : list string :=
  [ "# settings" ++ String (ascii_of_nat 10) "";
    String (ascii_of_nat 10) "";
    "OPENWEBUI_API_KEY = sk-old" ++ String (ascii_of_nat 10) "";
    "  DEFAULT_OPENWEBUI_URL=https://host/?a=b  " ++ String (ascii_of_nat 10) "";
    "OPENWEBUI_API_KEY=sk-file" ].

End Sample2.

(** ** Facts about the string primitives *)

Section StringFacts.

Import PyStr.

Lemma append_assoc (s t u : string) : (s ++ t) ++ u = s ++ t ++ u.
Proof. induction s as [|a s IH]; simpl; [reflexivity | now rewrite IH]. Qed.

Lemma length_append (s t : string) :
  String.length (s ++ t) = (String.length s + String.length t)%nat.
Proof. induction s as [|a s IH]; simpl; [reflexivity | now rewrite IH]. Qed.

Lemma startswith_append (s p : string) :
  startswith s p = true -> s = p ++ drop (String.length p) s.
Proof.
  unfold startswith. revert s.
  induction p as [|a p IH]; intros s H; simpl in *.
  - now destruct s.
  - destruct s as [|b s]; [discriminate|]. simpl in H.
    destruct (ascii_dec a b) as [->|]; [|discriminate].
    f_equal. now apply IH.
Qed.

Lemma drop_append_length (q p : string) : drop (String.length q) (q ++ p) = p.
Proof. induction q as [|a q IH]; simpl; [now destruct p | exact IH]. Qed.

Lemma drop_split (n : nat) (s : string) : exists q, s = q ++ drop n s.
Proof.
  revert s. induction n as [|n IH]; intros s.
  - exists "". now destruct s.
  - destruct s as [|a s]; [now exists ""|].
    destruct (IH s) as [q Hq]. exists (String a q). simpl. now rewrite <- Hq.
Qed.

Lemma endswith_suffix (s p : string) :
  endswith s p = true <-> exists q, s = q ++ p.
Proof.
  unfold endswith. rewrite andb_true_iff, Nat.leb_le, String.eqb_eq. split.
  - intros [_ H]. destruct (drop_split (String.length s - String.length p) s)
      as [q Hq]. exists q. now rewrite H in Hq.
  - intros [q ->]. rewrite length_append. split; [lia|].
    replace (String.length q + String.length p - String.length p)%nat
      with (String.length q) by lia.
    apply drop_append_length.
Qed.

Lemma lstrip_decompose (c : ascii) (s : string) :
  exists n, s = replicate n c ++ lstrip c s.
Proof.
  induction s as [|a s [n IH]]; simpl.
  - now exists 0%nat.
  - destruct (Ascii.eqb_spec a c) as [->|].
    + exists (S n). simpl. now rewrite <- IH.
    + now exists 0%nat.
Qed.

Lemma lstrip_first (c : ascii) (s : string) :
  first_char (lstrip c s) <> Some c.
Proof.
  induction s as [|a s IH]; simpl; [discriminate|].
  destruct (Ascii.eqb_spec a c); [exact IH|].
  simpl. congruence.
Qed.

Lemma rstrip_decompose (c : ascii) (s : string) :
  exists n, s = rstrip c s ++ replicate n c.
Proof.
  induction s as [|a s [n IH]]; simpl.
  - now exists 0%nat.
  - destruct (rstrip c s) as [|b r] eqn:E.
    + simpl in IH. destruct (Ascii.eqb_spec a c) as [->|].
      * exists (S n). simpl. now rewrite <- IH.
      * exists n. simpl. now rewrite <- IH.
    + exists n. simpl. now rewrite IH at 1.
Qed.

Lemma rstrip_last (c : ascii) (s : string) :
  last_char (rstrip c s) <> Some c.
Proof.
  induction s as [|a s IH]; simpl; [discriminate|].
  destruct (rstrip c s) as [|b r] eqn:E.
  - destruct (Ascii.eqb_spec a c); simpl; congruence.
  - exact IH.
Qed.

Lemma trim_one_of_clean_trailing (c : ascii) (b : string) (n : nat) :
  last_char b <> Some c -> (n <= 1)%nat ->
  trim_one_trailing c (b ++ replicate n c) = b.
Proof.
  intros Hb Hn. induction b as [|a b IH].
  - destruct n as [|[|n]]; simpl; [reflexivity| |lia].
    now rewrite Ascii.eqb_refl.
  - simpl. destruct b as [|a' b'].
    + destruct n as [|[|n]]; simpl; [| |lia].
      * destruct (Ascii.eqb_spec a c); [subst; now elim Hb | reflexivity].
      * now rewrite Ascii.eqb_refl.
    + simpl in IH |- *. f_equal. apply IH. exact Hb.
Qed.

Lemma trim_one_of_clean_leading (c : ascii) (s : string) (m : nat) :
  first_char s <> Some c -> (m <= 1)%nat ->
  trim_one_leading c (replicate m c ++ s) = s.
Proof.
  intros Hs Hm. destruct m as [|[|m]]; simpl; [| |lia].
  - destruct s as [|a s]; simpl; [reflexivity|].
    destruct (Ascii.eqb_spec a c); [subst; now elim Hs | reflexivity].
  - now rewrite Ascii.eqb_refl.
Qed.

End StringFacts.

(** ** How a request is routed *)

(** The cases of [build_request]. *)
Ltac build_request_cases req :=
  unfold build_request; cbv beta zeta;
  destruct (Command_eqb (command req) POST);
  [ destruct (match headers_get (headers req) "Content-Length" with
              | Some s => int_of_str s | None => inr 0%Z end) as [?e|?n];
    [| match goal with
       | |- context [(0 <? ?n)%Z] =>
           destruct (0 <? n)%Z; [destruct (read_error n)|]
       end;
       try destruct (request_error _) ]
  | destruct (request_error _) ].

Section Routes.

Context {rt : PyRuntime}.
Variable urlopen : Outbound -> Upstream.
Variable h : Host.

Lemma static_path_not_proxy (p : string) :
  p = "/" \/ p = "/webchat.html" -> PyStr.startswith p "/proxy/" = false.
Proof. intros [-> | ->]; reflexivity. Qed.

(** The four routes of [handle]. *)
Lemma handle_routes (req : Request) :
  (command req <> OPTIONS /\ PyStr.startswith (path req) "/proxy/" = true /\
   handle urlopen h req = handle_proxy_request urlopen h req)
  \/ (command req = OPTIONS /\ handle urlopen h req = (do_OPTIONS, []))
  \/ (command req = GET /\ (path req = "/" \/ path req = "/webchat.html") /\
      handle urlopen h req = (serve_webchat_file h, []))
  \/ (command req <> OPTIONS /\ PyStr.startswith (path req) "/proxy/" = false /\
      handle urlopen h req = (Send 404 [] "Not Found", [])).
Proof.
  unfold handle, do_GET, do_POST.
  destruct (command req) eqn:Hc.
  - right; left. now split.
  - destruct (String.eqb_spec (path req) "/") as [H1|H1]; simpl.
    + right; right; left. auto.
    + destruct (String.eqb_spec (path req) "/webchat.html") as [H2|H2].
      * right; right; left. auto.
      * destruct (PyStr.startswith (path req) "/proxy/") eqn:Hp.
        -- left. repeat split; congruence.
        -- right; right; right. repeat split; congruence.
  - destruct (PyStr.startswith (path req) "/proxy/") eqn:Hp.
    + left. repeat split; congruence.
    + right; right; right. repeat split; congruence.
Qed.

(** A request of the proxy route is handled by [handle_proxy_request]. *)
Lemma handle_proxy_route (req : Request) :
  command req <> OPTIONS -> PyStr.startswith (path req) "/proxy/" = true ->
  handle urlopen h req = handle_proxy_request urlopen h req.
Proof.
  intros Hc Hp.
  destruct (handle_routes req) as [(_ & _ & E) | [(E & _) | [(_ & Hs & _) | (_ & E & _)]]];
    try congruence.
  apply static_path_not_proxy in Hs. congruence.
Qed.

(** A request is sent upstream only on the proxy route, after both
    resolutions succeeded, and its answer is what is relayed. *)
Lemma sent_upstream (req : Request) (out : Outbound) :
  In out (snd (handle urlopen h req)) ->
  exists api_key openwebui_url,
    command req <> OPTIONS
    /\ PyStr.startswith (path req) "/proxy/" = true
    /\ resolve_api_key h req = inr api_key
    /\ resolve_openwebui_url h req = inr openwebui_url
    /\ build_request req
         (target_url openwebui_url (PyStr.drop (String.length "/proxy/") (path req)))
         (proxy_headers api_key) = inr out
    /\ handle urlopen h req = (relay (urlopen out), [out]).
Proof.
  intros Hin.
  destruct (handle_routes req) as [(Hc & Hp & E) | [(_ & E) | [(_ & _ & E) | (_ & _ & E)]]];
    rewrite E in Hin |- *; try (now elim Hin).
  unfold handle_proxy_request, prepare in Hin |- *. rewrite Hp in Hin |- *.
  destruct (resolve_api_key h req) as [r|api_key]; [now elim Hin|].
  destruct (resolve_openwebui_url h req) as [r|u]; [now elim Hin|].
  destruct (build_request req _ _) as [r|o] eqn:Hb; [now elim Hin|].
  destruct Hin as [->|[]]. exists api_key, u. repeat split; auto.
Qed.

(** At most one request is sent upstream: no retry. *)
Lemma single_attempt (req : Request) :
  (List.length (snd (handle urlopen h req)) <= 1)%nat.
Proof.
  destruct (handle_routes req) as [(_ & _ & E) | [(_ & E) | [(_ & _ & E) | (_ & _ & E)]]];
    rewrite E; simpl; try lia.
  unfold handle_proxy_request. destruct (prepare h req); simpl; lia.
Qed.

(** The request built carries the target URL and the headers it was given. *)
Lemma build_request_fields (req : Request) (target : string)
    (hdrs : list header) (out : Outbound) :
  build_request req target hdrs = inr out ->
  full_url out = target /\ out_headers out = hdrs.
Proof.
  build_request_cases req; intros E; inversion E; now split.
Qed.

(** A request is built only from a URL the constructor accepts. *)
Lemma build_request_accepted (req : Request) (target : string)
    (hdrs : list header) (out : Outbound) :
  build_request req target hdrs = inr out -> request_error target = None.
Proof.
  unfold build_request; cbv beta zeta.
  destruct (Command_eqb (command req) POST).
  - destruct (match headers_get (headers req) "Content-Length" with
              | Some s => int_of_str s | None => inr 0%Z end) as [e|n];
      [discriminate|].
    destruct (if (0 <? n)%Z
              then match read_error n with
                   | Some e => inl e
                   | None => inr (rfile_read n (rfile req))
                   end
              else inr ""); [discriminate|].
    now destruct (request_error target).
  - now destruct (request_error target).
Qed.

(** What [build_request] answers when no request is built. *)
Lemma build_request_failed (req : Request) (target : string)
    (hdrs : list header) (reply : Reply) :
  build_request req target hdrs = inl reply ->
  exists e, reply = SendError 500 ("Request failed with error: " ++ e).
Proof.
  build_request_cases req; intros E; inversion E; eexists; reflexivity.
Qed.

End Routes.

(** ** URL construction *)

Section TargetUrl.

Import PyStr.

(** The two trimmed parts of a target URL and the count of slashes taken
    from each. *)
Lemma target_url_parts (B S : string) :
  exists b s n m,
    B = b ++ replicate n "/" /\ last_char b <> Some "/"%char
    /\ S = replicate m "/" ++ s /\ first_char s <> Some "/"%char
    /\ target_url B S =
         b ++ (if endswith S "chat/completions" then "/api/v1/" else "/") ++ s.
Proof.
  destruct (rstrip_decompose "/" B) as [n Hn].
  destruct (lstrip_decompose "/" S) as [m Hm].
  exists (rstrip "/" B), (lstrip "/" S), n, m.
  repeat split; auto using rstrip_last, lstrip_first.
  unfold target_url. now destruct (endswith S "chat/completions").
Qed.

(** With at most one slash on either side, trimming every slash and
    trimming one slash agree. *)
Lemma spec_target_url_parts (b s : string) (n m : nat) :
  last_char b <> Some "/"%char -> first_char s <> Some "/"%char ->
  (n <= 1)%nat -> (m <= 1)%nat ->
  spec_target_url (b ++ replicate n "/") (replicate m "/" ++ s) =
    b ++ (if endswith (replicate m "/" ++ s) "chat/completions"
          then "/api/v1/" else "/") ++ s.
Proof.
  intros Hb Hs Hn Hm. unfold spec_target_url.
  now rewrite trim_one_of_clean_trailing, trim_one_of_clean_leading.
Qed.

End TargetUrl.

(** C1 (as amended): for every proxy request that reaches dispatch, with
    resolved base URL [B] and sub-path [S], the target URL is [B] without
    ALL its trailing slashes, then ["/api/v1/"] when [S] ends with
    ["chat/completions"] and ["/"] otherwise, then [S] without ALL its
    leading slashes.  It is the URL of the specification's wording when
    [B] ends with at most one slash and [S] starts with at most one.  The
    two examples of the specification hold. *)
Theorem C1_target_url_trims_every_slash
    (rt : PyRuntime) (urlopen : Outbound -> Upstream) (h : Host)
    (req : Request) (out : Outbound) :
  outbound_calls urlopen h req = [out] ->
  (exists B S b s n m,
     resolve_openwebui_url h req = inr B
     /\ path req = "/proxy/" ++ S
     /\ B = b ++ PyStr.replicate n "/"
     /\ PyStr.last_char b <> Some "/"%char
     /\ S = PyStr.replicate m "/" ++ s
     /\ PyStr.first_char s <> Some "/"%char
     /\ ((exists q, S = q ++ "chat/completions") ->
         full_url out = b ++ "/api/v1/" ++ s)
     /\ (~ (exists q, S = q ++ "chat/completions") ->
         full_url out = b ++ "/" ++ s)
     /\ ((n <= 1)%nat -> (m <= 1)%nat -> full_url out = spec_target_url B S))
  /\ target_url "https://host/" "chat/completions"
     = "https://host/api/v1/chat/completions"
  /\ target_url "https://host" "models" = "https://host/models".
Proof.
  intros Hcalls. split; [|split; reflexivity].
  destruct (sent_upstream urlopen h req out) as (k & B & _ & Hp & _ & HB & Hb & _).
  { unfold outbound_calls in Hcalls. rewrite Hcalls. now left. }
  apply build_request_fields in Hb. destruct Hb as [Hurl _].
  set (S := PyStr.drop (String.length "/proxy/") (path req)) in *.
  destruct (target_url_parts B S) as (b & s & n & m & EB & Hlast & ES & Hfirst & Et).
  exists B, S, b, s, n, m. rewrite Hurl, Et.
  repeat split; auto.
  - now apply startswith_append in Hp.
  - intros Hq. apply endswith_suffix in Hq. now rewrite Hq.
  - intros Hq. destruct (PyStr.endswith S "chat/completions") eqn:E; [|reflexivity].
    elim Hq. now apply endswith_suffix.
  - intros Hn Hm. rewrite EB at 1. rewrite ES at 2.
    rewrite spec_target_url_parts by assumption. now rewrite <- ES.
Qed.

(** Witness of C1: the model list asked of ["https://host/"]. *)
Lemma C1_target_url_witness :
  let urlopen := Sample.upstream_ok in
  let h := Sample.keyed_host in
  let req := Sample.models_request in
  let out := mkOutbound "https://host/models" None
               (proxy_headers "sk-server") "GET" in
  outbound_calls (rt := Sample.runtime) urlopen h req = [out]
  /\ ((exists B S b s n m,
         resolve_openwebui_url h req = inr B
         /\ path req = "/proxy/" ++ S
         /\ B = b ++ PyStr.replicate n "/"
         /\ PyStr.last_char b <> Some "/"%char
         /\ S = PyStr.replicate m "/" ++ s
         /\ PyStr.first_char s <> Some "/"%char
         /\ ((exists q, S = q ++ "chat/completions") ->
             full_url out = b ++ "/api/v1/" ++ s)
         /\ (~ (exists q, S = q ++ "chat/completions") ->
             full_url out = b ++ "/" ++ s)
         /\ ((n <= 1)%nat -> (m <= 1)%nat ->
             full_url out = spec_target_url B S))
      /\ target_url "https://host/" "chat/completions"
         = "https://host/api/v1/chat/completions"
      /\ target_url "https://host" "models" = "https://host/models").
Proof.
  intros urlopen h req out. split; [reflexivity|].
  exact (C1_target_url_trims_every_slash Sample.runtime urlopen h req out
           eq_refl).
Defined.

(** C1 fails as worded: with base ["https://host//"] the handler removes
    both trailing slashes, where trimming exactly one leaves
    ["https://host//models"]. *)
Lemma C1_counterexample_two_trailing_slashes :
  exists out,
    outbound_calls (rt := Sample.runtime) Sample.upstream_ok Sample.keyed_host
      Sample.models_request_two_slashes = [out]
    /\ resolve_openwebui_url Sample.keyed_host Sample.models_request_two_slashes
       = inr "https://host//"
    /\ full_url out = "https://host/models"
    /\ spec_target_url "https://host//" "models" = "https://host//models"
    /\ full_url out <> spec_target_url "https://host//" "models".
Proof.
  eexists. repeat split; try reflexivity. vm_compute. discriminate.
Qed.

(** ** Credential resolution *)

Section Credentials.

Context {rt : PyRuntime}.

(** Looking up one header does not see the lines of another one. *)
Lemma headers_get_without (x name : string) (hs : list header) :
  PyStr.lower name <> PyStr.lower x ->
  headers_get (without_header x hs) name = headers_get hs name.
Proof.
  intros Hne. induction hs as [|[k v] hs IH]; simpl; [reflexivity|].
  destruct (String.eqb_spec (PyStr.lower k) (PyStr.lower x)) as [E|E]; simpl.
  - rewrite IH. destruct (String.eqb_spec (PyStr.lower k) (PyStr.lower name));
      [congruence | reflexivity].
  - now rewrite IH.
Qed.

(** Two header sets that agree outside [x] agree on every other name. *)
Lemma headers_get_outside (x name : string) (hs1 hs2 : list header) :
  without_header x hs1 = without_header x hs2 ->
  PyStr.lower name <> PyStr.lower x ->
  headers_get hs1 name = headers_get hs2 name.
Proof.
  intros E Hne.
  rewrite <- (headers_get_without x name hs1), <- (headers_get_without x name hs2)
    by assumption.
  now rewrite E.
Qed.

(** A configured server-wide token is the resolved token. *)
Lemma server_key_wins (h : Host) (req : Request) (key : string) :
  environ_get (environ h) "OPENWEBUI_API_KEY" = Some key -> key <> "" ->
  resolve_api_key h req = inr key.
Proof.
  intros E Hne. unfold resolve_api_key. rewrite E. simpl.
  unfold PyStr.truthy. now destruct (String.eqb_spec key "").
Qed.

(** Without a server-wide token, the client's header decides. *)
Lemma client_key_decides (h : Host) (req : Request) :
  truthy (environ_get (environ h) "OPENWEBUI_API_KEY") = None ->
  resolve_api_key h req =
    match truthy (headers_get (headers req) "X-API-Key") with
    | None =>
        inl (SendError 400
               "Missing X-API-Key header or server-side OPENWEBUI_API_KEY environment variable")
    | Some encoded =>
        match b64decode_utf8 encoded with
        | inr api_key => inr api_key
        | inl e => inl (SendError 400 ("Invalid API key encoding: " ++ e))
        end
    end.
Proof. intros E. unfold resolve_api_key. now rewrite E. Qed.

(** A request of the proxy route that is turned down at credential
    resolution: the reply is sent and nothing goes upstream. *)
Lemma rejected_at_credentials (urlopen : Outbound -> Upstream) (h : Host)
    (req : Request) (reply : Reply) :
  command req <> OPTIONS -> PyStr.startswith (path req) "/proxy/" = true ->
  resolve_api_key h req = inl reply ->
  handle urlopen h req = (reply, []).
Proof.
  intros Hc Hp E. rewrite handle_proxy_route by assumption.
  unfold handle_proxy_request, prepare. now rewrite Hp, E.
Qed.

End Credentials.

(** C2: while the server-wide token is configured (non-empty), it is the
    resolved bearer token, and two requests that differ only in their
    X-API-Key header lines get the same response and cause the same
    upstream request, whose Authorization header carries the server-wide
    token. *)
Theorem C2_server_token_ignores_client_key
    (rt : PyRuntime) (urlopen : Outbound -> Upstream) (h : Host)
    (key : string) (r1 r2 : Request) :
  environ_get (environ h) "OPENWEBUI_API_KEY" = Some key -> key <> "" ->
  command r1 = command r2 -> path r1 = path r2 -> rfile r1 = rfile r2 ->
  without_header "X-API-Key" (headers r1)
    = without_header "X-API-Key" (headers r2) ->
  resolve_api_key h r1 = inr key
  /\ resolve_api_key h r2 = inr key
  /\ respond urlopen h r1 = respond urlopen h r2
  /\ outbound_calls urlopen h r1 = outbound_calls urlopen h r2
  /\ (forall out, In out (outbound_calls urlopen h r1) ->
      headers_get (out_headers out) "Authorization" = Some ("Bearer " ++ key)).
Proof.
  intros Hkey Hne Hc Hp Hr Hh.
  pose proof (server_key_wins h r1 key Hkey Hne) as K1.
  pose proof (server_key_wins h r2 key Hkey Hne) as K2.
  assert (Hurl : headers_get (headers r1) "X-OpenWebUI-URL"
                 = headers_get (headers r2) "X-OpenWebUI-URL").
  { apply (headers_get_outside "X-API-Key"); [exact Hh | vm_compute; discriminate]. }
  assert (Hlen : headers_get (headers r1) "Content-Length"
                 = headers_get (headers r2) "Content-Length").
  { apply (headers_get_outside "X-API-Key"); [exact Hh | vm_compute; discriminate]. }
  assert (Hprep : prepare h r1 = prepare h r2).
  { unfold prepare. rewrite K1, K2, <- Hp.
    unfold resolve_openwebui_url, build_request.
    now rewrite <- Hurl, <- Hlen, <- Hc, <- Hr. }
  assert (Hhandle : handle urlopen h r1 = handle urlopen h r2).
  { unfold handle, do_GET, do_POST, handle_proxy_request.
    now rewrite <- Hc, <- Hp, <- Hprep. }
  unfold respond, outbound_calls. rewrite <- Hhandle.
  repeat split; auto.
  intros out Hin.
  destruct (sent_upstream urlopen h r1 out Hin) as (k & u & _ & _ & Hk & _ & Hb & _).
  apply build_request_fields in Hb. destruct Hb as [_ ->].
  rewrite K1 in Hk. inversion Hk. subst k. reflexivity.
Qed.

(** Witness of C2: the same chat request with and without a client key. *)
Lemma C2_server_token_witness :
  let h := Sample.keyed_host in
  let r1 := Sample.chat_request [] in
  let r2 := Sample.chat_request [ ("x-api-key", "not base64 at all") ] in
  (environ_get (environ h) "OPENWEBUI_API_KEY" = Some "sk-server"
   /\ "sk-server" <> "")
  /\ resolve_api_key (rt := Sample.runtime) h r1 = inr "sk-server"
  /\ resolve_api_key (rt := Sample.runtime) h r2 = inr "sk-server"
  /\ respond (rt := Sample.runtime) Sample.upstream_ok h r1
     = respond (rt := Sample.runtime) Sample.upstream_ok h r2
  /\ outbound_calls (rt := Sample.runtime) Sample.upstream_ok h r1
     = outbound_calls (rt := Sample.runtime) Sample.upstream_ok h r2
  /\ (forall out,
        In out (outbound_calls (rt := Sample.runtime) Sample.upstream_ok h r1) ->
        headers_get (out_headers out) "Authorization"
        = Some ("Bearer " ++ "sk-server")).
Proof.
  intros h r1 r2. split; [split; [reflexivity | discriminate]|].
  apply (C2_server_token_ignores_client_key Sample.runtime Sample.upstream_ok
           h "sk-server" r1 r2);
    [reflexivity | discriminate | reflexivity | reflexivity | reflexivity
    | reflexivity].
Defined.

(** ** Relaying an upstream HTTP error *)

Section HttpError.

(** The serialised error object, spelled out. *)
Lemma error_response_dumps (code : Z) (reason : string) :
  Json.dumps (error_response code reason) =
    "{" ++ quoted "error" ++ ": {"
        ++ quoted "message" ++ ": "
        ++ Json.encode_basestring_ascii ("Request failed: " ++ reason) ++ ", "
        ++ quoted "type" ++ ": " ++ quoted "http_error" ++ ", "
        ++ quoted "code" ++ ": " ++ PyStr.str_of_int code ++ "}}".
Proof.
  unfold error_response. cbn [Json.dumps PyStr.join].
  change (Json.encode_basestring_ascii "error") with (quoted "error").
  change (Json.encode_basestring_ascii "message") with (quoted "message").
  change (Json.encode_basestring_ascii "type") with (quoted "type").
  change (Json.encode_basestring_ascii "code") with (quoted "code").
  change (Json.encode_basestring_ascii "http_error") with (quoted "http_error").
  repeat rewrite append_assoc. reflexivity.
Qed.

(** The reply that follows a request sent upstream. *)
Lemma relayed (rt : PyRuntime) (urlopen : Outbound -> Upstream) (h : Host)
    (req : Request) (out : Outbound) :
  outbound_calls urlopen h req = [out] ->
  fst (handle urlopen h req) = relay (urlopen out).
Proof.
  intros Hcalls.
  destruct (sent_upstream urlopen h req out) as (k & u & _ & _ & _ & _ & _ & E).
  { unfold outbound_calls in Hcalls. rewrite Hcalls. now left. }
  now rewrite E.
Qed.

End HttpError.

(** C3 (as amended): when the upstream call ends in an HTTP error, the
    relayed response carries the upstream status code, the JSON content
    type, the cross-origin headers, and the body
    [{"error": {"message": "Request failed: <reason>", "type": "http_error",
    "code": <code>}}] as [json.dumps] writes it: the message is the reason
    phrase after the prefix ["Request failed: "]. *)
Theorem C3_http_error_body
    (rt : PyRuntime) (urlopen : Outbound -> Upstream) (h : Host)
    (req : Request) (out : Outbound) (code : Z) (reason : string) :
  outbound_calls urlopen h req = [out] ->
  urlopen out = HTTPError code reason ->
  status (respond urlopen h req) = code
  /\ response_body (respond urlopen h req) =
       "{" ++ quoted "error" ++ ": {"
           ++ quoted "message" ++ ": "
           ++ Json.encode_basestring_ascii ("Request failed: " ++ reason) ++ ", "
           ++ quoted "type" ++ ": " ++ quoted "http_error" ++ ", "
           ++ quoted "code" ++ ": " ++ PyStr.str_of_int code ++ "}}"
  /\ In ("Content-Type", "application/json")
        (response_headers (respond urlopen h req))
  /\ incl send_cors_headers (response_headers (respond urlopen h req)).
Proof.
  intros Hcalls Hup. unfold respond.
  rewrite (relayed rt urlopen h req out Hcalls), Hup.
  cbn [relay render status response_body response_headers].
  rewrite error_response_dumps.
  repeat split.
  - apply in_or_app. right. now left.
  - intros x Hx. apply in_or_app. right. now right.
Qed.

(** Witness of C3: upstream answers 429 "Too Many Requests". *)
Lemma C3_http_error_witness :
  let urlopen := Sample.upstream_429 in
  let h := Sample.keyed_host in
  let req := Sample.models_request in
  let out := mkOutbound "https://host/models" None
               (proxy_headers "sk-server") "GET" in
  (outbound_calls (rt := Sample.runtime) urlopen h req = [out]
   /\ urlopen out = HTTPError 429 "Too Many Requests")
  /\ status (respond (rt := Sample.runtime) urlopen h req) = 429%Z
  /\ response_body (respond (rt := Sample.runtime) urlopen h req) =
       "{" ++ quoted "error" ++ ": {"
           ++ quoted "message" ++ ": "
           ++ Json.encode_basestring_ascii
                ("Request failed: " ++ "Too Many Requests") ++ ", "
           ++ quoted "type" ++ ": " ++ quoted "http_error" ++ ", "
           ++ quoted "code" ++ ": " ++ PyStr.str_of_int 429 ++ "}}"
  /\ In ("Content-Type", "application/json")
        (response_headers (respond (rt := Sample.runtime) urlopen h req))
  /\ incl send_cors_headers
        (response_headers (respond (rt := Sample.runtime) urlopen h req)).
Proof.
  intros urlopen h req out. split; [split; reflexivity|].
  exact (C3_http_error_body Sample.runtime urlopen h req out 429%Z
           "Too Many Requests" eq_refl eq_refl).
Defined.

(** C3 fails as worded: for upstream 429 "Too Many Requests" the status is
    429, but the message is ["Request failed: Too Many Requests"], so the
    body is not the error object of the specification, neither as
    [json.dumps] writes it nor in the compact form of the example. *)
Lemma C3_counterexample_message_prefix :
  let r := respond (rt := Sample.runtime) Sample.upstream_429
             Sample.keyed_host Sample.models_request in
  (exists out,
     outbound_calls (rt := Sample.runtime) Sample.upstream_429
       Sample.keyed_host Sample.models_request = [out]
     /\ Sample.upstream_429 out = HTTPError 429 "Too Many Requests")
  /\ status r = 429%Z
  /\ response_body r =
       "{" ++ quoted "error" ++ ": {" ++ quoted "message" ++ ": "
           ++ quoted "Request failed: Too Many Requests" ++ ", "
           ++ quoted "type" ++ ": " ++ quoted "http_error" ++ ", "
           ++ quoted "code" ++ ": 429}}"
  /\ response_body r <> Json.dumps (spec_error_response 429 "Too Many Requests")
  /\ response_body r <>
       "{" ++ quoted "error" ++ ":{" ++ quoted "message" ++ ":"
           ++ quoted "Too Many Requests" ++ ","
           ++ quoted "type" ++ ":" ++ quoted "http_error" ++ ","
           ++ quoted "code" ++ ":429}}".
Proof.
  intros r. split; [eexists; split; reflexivity|].
  split; [reflexivity|]. split; [reflexivity|].
  split; vm_compute; discriminate.
Qed.

(** ** Requests turned down for their credentials *)

(** C4 (as amended): with no server-wide token, an X-API-Key header whose
    value [base64.b64decode] rejects (it skips the characters outside the
    alphabet, so it rejects a value with a non-ASCII character, with one
    character of the alphabet more than a multiple of four, or with
    incorrect padding) or whose decoded bytes are not UTF-8 gives status
    400, a message that cites the decoding failure, and no request
    upstream. *)
Theorem C4_invalid_key_encoding
    (rt : PyRuntime) (urlopen : Outbound -> Upstream) (h : Host)
    (req : Request) (encoded e : string) :
  command req <> OPTIONS ->
  PyStr.startswith (path req) "/proxy/" = true ->
  truthy (environ_get (environ h) "OPENWEBUI_API_KEY") = None ->
  headers_get (headers req) "X-API-Key" = Some encoded ->
  cpython_b64decode_utf8 encoded = Some (inl e) ->
  status (respond urlopen h req) = 400%Z
  /\ status_message (respond urlopen h req)
     = Some ("Invalid API key encoding: " ++ e)
  /\ outbound_calls urlopen h req = [].
Proof.
  intros Hc Hp Hno Hget Hcpython.
  pose proof (b64decode_utf8_cpython encoded (inl e) Hcpython) as Hdec.
  assert (Hne : encoded <> "").
  { intros ->. rewrite b64decode_utf8_empty in Hdec. discriminate. }
  assert (E : resolve_api_key h req
              = inl (SendError 400 ("Invalid API key encoding: " ++ e))).
  { rewrite (client_key_decides h req Hno), Hget. simpl.
    unfold PyStr.truthy. destruct (String.eqb_spec encoded ""); [contradiction|].
    simpl. now rewrite Hdec. }
  unfold respond, outbound_calls.
  rewrite (rejected_at_credentials urlopen h req _ Hc Hp E).
  repeat split.
Qed.

(** Witness of C4: five characters of the alphabet cannot be base64. *)
Lemma C4_invalid_key_witness :
  let urlopen := Sample.upstream_ok in
  let h := Sample.bare_host in
  let req := Sample.chat_request [ ("X-API-Key", "c2Vjc") ] in
  let e := "Invalid base64-encoded string: number of data characters (5) cannot be 1 more than a multiple of 4" in
  (command req <> OPTIONS
   /\ PyStr.startswith (path req) "/proxy/" = true
   /\ truthy (environ_get (environ h) "OPENWEBUI_API_KEY") = None
   /\ headers_get (headers req) "X-API-Key" = Some "c2Vjc"
   /\ cpython_b64decode_utf8 "c2Vjc" = Some (inl e))
  /\ status (respond (rt := Sample.runtime) urlopen h req) = 400%Z
  /\ status_message (respond (rt := Sample.runtime) urlopen h req)
     = Some ("Invalid API key encoding: " ++ e)
  /\ outbound_calls (rt := Sample.runtime) urlopen h req = [].
Proof.
  intros urlopen h req e.
  split; [repeat split; try reflexivity; discriminate|].
  apply (C4_invalid_key_encoding Sample.runtime urlopen h req "c2Vjc" e);
    [discriminate | reflexivity | reflexivity | reflexivity | reflexivity].
Defined.

(** C4 fails as worded: ["c2Vj!cmV0"] is not valid base64, but
    [base64.b64decode] skips the ["!"] and decodes the rest to ["secret"]:
    the request is sent upstream with that token and its answer, here 200,
    is relayed. *)
Lemma C4_counterexample_skipped_character :
  let urlopen := Sample.upstream_ok in
  let h := Sample2.open_host in
  let req := mkRequest GET "/proxy/models" [ ("X-API-Key", "c2Vj!cmV0") ] "" in
  (command req <> OPTIONS
   /\ PyStr.startswith (path req) "/proxy/" = true
   /\ truthy (environ_get (environ h) "OPENWEBUI_API_KEY") = None
   /\ headers_get (headers req) "X-API-Key" = Some "c2Vj!cmV0"
   /\ Rfc4648.valid "c2Vj!cmV0" = false)
  /\ cpython_b64decode_utf8 "c2Vj!cmV0" = Some (inr "secret")
  /\ status (respond (rt := Sample.runtime) urlopen h req) = 200%Z
  /\ status (respond (rt := Sample.runtime) urlopen h req) <> 400%Z
  /\ outbound_calls (rt := Sample.runtime) urlopen h req
     = [ mkOutbound "https://host/models" None (proxy_headers "secret") "GET" ].
Proof.
  intros urlopen h req.
  repeat split; try reflexivity; discriminate.
Qed.

(** C5: with no server-wide token and no X-API-Key header, the status is
    400, the message names the X-API-Key header and the OPENWEBUI_API_KEY
    environment variable, and no request goes upstream. *)
Theorem C5_missing_credentials
    (rt : PyRuntime) (urlopen : Outbound -> Upstream) (h : Host)
    (req : Request) :
  command req <> OPTIONS ->
  PyStr.startswith (path req) "/proxy/" = true ->
  truthy (environ_get (environ h) "OPENWEBUI_API_KEY") = None ->
  headers_get (headers req) "X-API-Key" = None ->
  status (respond urlopen h req) = 400%Z
  /\ status_message (respond urlopen h req)
     = Some ("Missing " ++ "X-API-Key" ++ " header or server-side "
               ++ "OPENWEBUI_API_KEY" ++ " environment variable")
  /\ outbound_calls urlopen h req = [].
Proof.
  intros Hc Hp Hno Hget.
  assert (E : resolve_api_key h req
              = inl (SendError 400
                       "Missing X-API-Key header or server-side OPENWEBUI_API_KEY environment variable")).
  { now rewrite (client_key_decides h req Hno), Hget. }
  unfold respond, outbound_calls.
  rewrite (rejected_at_credentials urlopen h req _ Hc Hp E).
  repeat split.
Qed.

(** Witness of C5: a chat request without any key. *)
Lemma C5_missing_credentials_witness :
  let urlopen := Sample.upstream_ok in
  let h := Sample.bare_host in
  let req := Sample.chat_request [] in
  (command req <> OPTIONS
   /\ PyStr.startswith (path req) "/proxy/" = true
   /\ truthy (environ_get (environ h) "OPENWEBUI_API_KEY") = None
   /\ headers_get (headers req) "X-API-Key" = None)
  /\ status (respond (rt := Sample.runtime) urlopen h req) = 400%Z
  /\ status_message (respond (rt := Sample.runtime) urlopen h req)
     = Some ("Missing " ++ "X-API-Key" ++ " header or server-side "
               ++ "OPENWEBUI_API_KEY" ++ " environment variable")
  /\ outbound_calls (rt := Sample.runtime) urlopen h req = [].
Proof.
  intros urlopen h req.
  split; [repeat split; try reflexivity; discriminate|].
  apply (C5_missing_credentials Sample.runtime urlopen h req);
    [discriminate | reflexivity | reflexivity | reflexivity].
Defined.

(** ** Relaying an upstream answer *)

Section Relay.

(** The hop-by-hop test, read as a proposition. *)
Lemma hop_by_hop_false (name : string) :
  hop_by_hop name = false <->
  PyStr.lower name <> "connection" /\ PyStr.lower name <> "transfer-encoding".
Proof.
  unfold hop_by_hop. cbn [existsb]. rewrite orb_false_r, orb_false_iff.
  now rewrite !String.eqb_neq.
Qed.

(** The headers kept by the relay loop are the lines of the answer that
    are not hop-by-hop. *)
Lemma kept_headers (hs : list header) (k v : string) :
  In (k, v) (filter (fun hv => negb (hop_by_hop (fst hv))) hs) <->
  In (k, v) hs /\ hop_by_hop k = false.
Proof. rewrite filter_In. cbn [fst]. now rewrite negb_true_iff. Qed.

(** No header added around the relayed ones is hop-by-hop. *)
Lemma framing_headers_not_hop_by_hop (rt : PyRuntime) (k v : string) :
  In (k, v) (send_response_headers ++ send_cors_headers)%list ->
  hop_by_hop k = false.
Proof.
  cbn [send_response_headers send_cors_headers app In].
  intros H. repeat (destruct H as [H|H]; [inversion H; subst; reflexivity|]).
  elim H.
Qed.

End Relay.

(** C6: when the upstream call succeeds, the relayed response has the
    upstream status code and the upstream body bytes, and its headers are
    the two of [send_response], then every upstream header line, in order,
    whose name is neither Connection nor Transfer-Encoding in any letter
    case, then the cross-origin headers; no header named Connection or
    Transfer-Encoding, in any letter case, is in the relayed response. *)
Theorem C6_success_relay
    (rt : PyRuntime) (urlopen : Outbound -> Upstream) (h : Host)
    (req : Request) (out : Outbound)
    (upstream_status : Z) (upstream_headers : list header)
    (upstream_body : string) :
  outbound_calls urlopen h req = [out] ->
  urlopen out = Answered upstream_status upstream_headers upstream_body ->
  status (respond urlopen h req) = upstream_status
  /\ response_body (respond urlopen h req) = upstream_body
  /\ response_headers (respond urlopen h req) =
       (send_response_headers
          ++ filter (fun hv => negb (hop_by_hop (fst hv))) upstream_headers
          ++ send_cors_headers)%list
  /\ (forall k v, In (k, v) upstream_headers ->
        PyStr.lower k <> "connection" ->
        PyStr.lower k <> "transfer-encoding" ->
        In (k, v) (response_headers (respond urlopen h req)))
  /\ (forall k v, In (k, v) (response_headers (respond urlopen h req)) ->
        PyStr.lower k <> "connection"
        /\ PyStr.lower k <> "transfer-encoding").
Proof.
  intros Hcalls Hup. unfold respond.
  rewrite (relayed rt urlopen h req out Hcalls), Hup.
  cbn [relay render status response_body response_headers].
  repeat split; try reflexivity.
  - intros k v Hin H1 H2. apply in_or_app. right. apply in_or_app. left.
    apply kept_headers. split; [exact Hin | now apply hop_by_hop_false].
  - apply hop_by_hop_false. apply in_app_or in H. destruct H as [H|H].
    + apply (framing_headers_not_hop_by_hop rt k v). apply in_or_app. now left.
    + apply in_app_or in H. destruct H as [H|H].
      * now apply kept_headers in H.
      * apply (framing_headers_not_hop_by_hop rt k v). apply in_or_app. now right.
  - apply hop_by_hop_false. apply in_app_or in H. destruct H as [H|H].
    + apply (framing_headers_not_hop_by_hop rt k v). apply in_or_app. now left.
    + apply in_app_or in H. destruct H as [H|H].
      * now apply kept_headers in H.
      * apply (framing_headers_not_hop_by_hop rt k v). apply in_or_app. now right.
Qed.

(** Witness of C6: an answer with a content type and two hop-by-hop
    headers, one of them in lower case. *)
Lemma C6_success_relay_witness :
  let urlopen := Sample.upstream_ok in
  let h := Sample.keyed_host in
  let req := Sample.models_request in
  let out := mkOutbound "https://host/models" None
               (proxy_headers "sk-server") "GET" in
  let upstream_headers :=
    [ ("Content-Type", "application/json");
      ("connection", "keep-alive");
      ("Transfer-Encoding", "chunked") ] in
  (outbound_calls (rt := Sample.runtime) urlopen h req = [out]
   /\ urlopen out = Answered 200 upstream_headers "{}")
  /\ status (respond (rt := Sample.runtime) urlopen h req) = 200%Z
  /\ response_body (respond (rt := Sample.runtime) urlopen h req) = "{}"
  /\ response_headers (respond (rt := Sample.runtime) urlopen h req) =
       (send_response_headers (rt := Sample.runtime)
          ++ filter (fun hv => negb (hop_by_hop (fst hv))) upstream_headers
          ++ send_cors_headers)%list
  /\ (forall k v, In (k, v) upstream_headers ->
        PyStr.lower k <> "connection" ->
        PyStr.lower k <> "transfer-encoding" ->
        In (k, v) (response_headers
                     (respond (rt := Sample.runtime) urlopen h req)))
  /\ (forall k v,
        In (k, v) (response_headers
                     (respond (rt := Sample.runtime) urlopen h req)) ->
        PyStr.lower k <> "connection"
        /\ PyStr.lower k <> "transfer-encoding").
Proof.
  intros urlopen h req out upstream_headers. split; [split; reflexivity|].
  exact (C6_success_relay Sample.runtime urlopen h req out 200%Z
           upstream_headers "{}" eq_refl eq_refl).
Defined.

(** ** The outbound request *)

(** C7: every request sent upstream carries exactly three headers, in this
    order: Authorization with ["Bearer "] and the resolved token,
    Content-Type application/json, and the fixed User-Agent; none of them
    is a line of the incoming request. *)
Theorem C7_outbound_headers
    (rt : PyRuntime) (urlopen : Outbound -> Upstream) (h : Host)
    (req : Request) (out : Outbound) :
  In out (outbound_calls urlopen h req) ->
  exists api_key,
    resolve_api_key h req = inr api_key
    /\ out_headers out =
         [ ("Authorization", "Bearer " ++ api_key);
           ("Content-Type", "application/json");
           ("User-Agent",
            "Mozilla/5.0 (Windows NT 10.0; Win64; x64) AppleWebKit/537.36 (KHTML, like Gecko) Chrome/91.0.4472.124 Safari/537.36") ]
    /\ List.length (out_headers out) = 3%nat.
Proof.
  intros Hin.
  destruct (sent_upstream urlopen h req out Hin) as (k & u & _ & _ & Hk & _ & Hb & _).
  apply build_request_fields in Hb. destruct Hb as [_ ->].
  exists k. repeat split. exact Hk.
Qed.

(** Witness of C7: a chat request with a client key and two more headers. *)
Lemma C7_outbound_headers_witness :
  let urlopen := Sample.upstream_ok in
  let h := mkHost [ ("DEFAULT_OPENWEBUI_URL", "https://host") ] None in
  let req := Sample.chat_request
               [ ("X-API-Key", "c2VjcmV0"); ("Cookie", "session=1");
                 ("User-Agent", "curl/8.0") ] in
  let out := mkOutbound "https://host/api/v1/chat/completions"
               (Some "{'model':'m'}") (proxy_headers "secret") "POST" in
  In out (outbound_calls (rt := Sample.runtime) urlopen h req)
  /\ exists api_key,
       resolve_api_key (rt := Sample.runtime) h req = inr api_key
       /\ out_headers out =
            [ ("Authorization", "Bearer " ++ api_key);
              ("Content-Type", "application/json");
              ("User-Agent",
               "Mozilla/5.0 (Windows NT 10.0; Win64; x64) AppleWebKit/537.36 (KHTML, like Gecko) Chrome/91.0.4472.124 Safari/537.36") ]
       /\ List.length (out_headers out) = 3%nat.
Proof.
  intros urlopen h req out. split; [now left|].
  apply (C7_outbound_headers Sample.runtime urlopen h req out). now left.
Defined.

(** ** Unknown paths *)

(** C8 (as amended): for every GET or POST request whose path does not
    start with ["/proxy/"] and is neither ["/"] nor ["/webchat.html"], the
    status is 404, the body is ["Not Found"], and nothing goes upstream. *)
Theorem C8_unknown_path_not_found
    (rt : PyRuntime) (urlopen : Outbound -> Upstream) (h : Host)
    (req : Request) :
  command req = GET \/ command req = POST ->
  PyStr.startswith (path req) "/proxy/" = false ->
  path req <> "/" -> path req <> "/webchat.html" ->
  status (respond urlopen h req) = 404%Z
  /\ response_body (respond urlopen h req) = "Not Found"
  /\ outbound_calls urlopen h req = [].
Proof.
  intros Hc Hp H1 H2. unfold respond, outbound_calls.
  destruct (handle_routes urlopen h req)
    as [(_ & E & _) | [(E & _) | [(_ & [E|E] & _) | (_ & _ & E)]]];
    try congruence.
  - destruct Hc; congruence.
  - rewrite E. repeat split.
Qed.

(** Witness of C8: a POST to ["/api/models"]. *)
Lemma C8_unknown_path_witness :
  let urlopen := Sample.upstream_ok in
  let h := Sample.keyed_host in
  let req := mkRequest POST "/api/models" [] "" in
  ((command req = GET \/ command req = POST)
   /\ PyStr.startswith (path req) "/proxy/" = false
   /\ path req <> "/" /\ path req <> "/webchat.html")
  /\ status (respond (rt := Sample.runtime) urlopen h req) = 404%Z
  /\ response_body (respond (rt := Sample.runtime) urlopen h req) = "Not Found"
  /\ outbound_calls (rt := Sample.runtime) urlopen h req = [].
Proof.
  intros urlopen h req.
  split; [repeat split; try discriminate; now right|].
  apply (C8_unknown_path_not_found Sample.runtime urlopen h req);
    [now right | reflexivity | discriminate | discriminate].
Defined.

(** C8 fails as worded: an OPTIONS request to such a path is answered by
    [do_OPTIONS] with status 200 and an empty body. *)
Lemma C8_counterexample_options :
  let req := mkRequest OPTIONS "/api/models" [] "" in
  let r := respond (rt := Sample.runtime) Sample.upstream_ok
             Sample.keyed_host req in
  PyStr.startswith (path req) "/proxy/" = false
  /\ path req <> "/" /\ path req <> "/webchat.html"
  /\ status r = 200%Z /\ status r <> 404%Z
  /\ response_body r = "" /\ response_body r <> "Not Found".
Proof.
  intros req r. repeat split; try reflexivity; discriminate.
Qed.

(** ** Cross-origin headers *)

Section CrossOrigin.

Context {rt : PyRuntime}.

(** What [send_error] sends carries no cross-origin header. *)
Lemma send_error_no_cors (code : Z) (message : string) (k v : string) :
  In (k, v) (response_headers (render (SendError code message))) ->
  cross_origin k = false.
Proof.
  unfold render.
  destruct ((200 <=? code)%Z && negb (existsb (Z.eqb code) [204; 205; 304]%Z));
    cbn [response_headers send_response_headers app In]; intros H;
    repeat (destruct H as [H|H]; [inversion H; subst; reflexivity|]);
    elim H.
Qed.

(** A reply whose own headers include the cross-origin ones keeps them. *)
Lemma send_keeps_cors (code : Z) (hdrs : list header) (body : string) :
  incl send_cors_headers hdrs ->
  incl send_cors_headers (response_headers (render (Send code hdrs body))).
Proof. intros H x Hx. cbn. right. right. now apply H. Qed.

(** The replies of [relay], by outcome of the upstream call. *)
Lemma relay_reply (res : Upstream) :
  match relay res with
  | SendError code _ =>
      code = 500%Z /\ (exists reason, res = URLError reason
                       \/ res = OtherError reason)
  | Send _ hdrs _ =>
      incl send_cors_headers hdrs
      /\ ((exists st hs b, res = Answered st hs b)
          \/ (exists code reason, res = HTTPError code reason))
  end.
Proof.
  destruct res as [st hs b | code reason | reason | d]; cbn [relay].
  - split; [intros x Hx; apply in_or_app; now right | left; eauto].
  - split; [intros x Hx; now right | right; eauto].
  - split; eauto.
  - split; eauto.
Qed.

(** The replies of the two resolutions that end a request. *)
Lemma resolve_api_key_rejects (h : Host) (req : Request) (reply : Reply) :
  resolve_api_key h req = inl reply ->
  reply = SendError 400
            "Missing X-API-Key header or server-side OPENWEBUI_API_KEY environment variable"
  \/ exists e, reply = SendError 400 ("Invalid API key encoding: " ++ e).
Proof.
  unfold resolve_api_key.
  destruct (truthy (environ_get (environ h) "OPENWEBUI_API_KEY"));
    [discriminate|].
  destruct (truthy (headers_get (headers req) "X-API-Key")) as [encoded|];
    [destruct (b64decode_utf8 encoded) as [e|k]|]; intros E; inversion E.
  - right. now exists e.
  - now left.
Qed.

Lemma resolve_openwebui_url_rejects (h : Host) (req : Request) (reply : Reply) :
  resolve_openwebui_url h req = inl reply ->
  reply = SendError 400
            "Missing X-OpenWebUI-URL header or DEFAULT_OPENWEBUI_URL environment variable".
Proof.
  unfold resolve_openwebui_url.
  destruct (truthy (headers_get (headers req) "X-OpenWebUI-URL"));
    [discriminate|].
  destruct (truthy (environ_get (environ h) "DEFAULT_OPENWEBUI_URL"));
    intros E; inversion E; reflexivity.
Qed.

(** The replies of [prepare] that end a request, one by one. *)
Lemma prepare_rejects (h : Host) (req : Request) (reply : Reply) :
  prepare h req = inl reply ->
  reply = SendError 400 "Invalid proxy path"
          /\ PyStr.startswith (path req) "/proxy/" = false
  \/ reply = SendError 400
               "Missing X-API-Key header or server-side OPENWEBUI_API_KEY environment variable"
  \/ (exists e, reply = SendError 400 ("Invalid API key encoding: " ++ e))
  \/ reply = SendError 400
               "Missing X-OpenWebUI-URL header or DEFAULT_OPENWEBUI_URL environment variable"
  \/ (exists e, reply = SendError 500 ("Request failed with error: " ++ e)).
Proof.
  unfold prepare.
  destruct (PyStr.startswith (path req) "/proxy/");
    [|intros E; inversion E; auto].
  destruct (resolve_api_key h req) as [r|k] eqn:Hk.
  - intros E. inversion E. subst r.
    destruct (resolve_api_key_rejects h req reply Hk); auto.
  - destruct (resolve_openwebui_url h req) as [r|u] eqn:Hu.
    + intros E. inversion E. subst r.
      rewrite (resolve_openwebui_url_rejects h req reply Hu). auto.
    + intros E. apply build_request_failed in E. auto 6.
Qed.

(** The replies of [prepare] that end a request. *)
Lemma prepare_reply (h : Host) (req : Request) (reply : Reply) :
  prepare h req = inl reply ->
  exists code message,
    reply = SendError code message /\ (code = 400%Z \/ code = 500%Z).
Proof.
  intros E.
  destruct (prepare_rejects h req reply E)
    as [[-> _] | [-> | [[e ->] | [-> | [e ->]]]]]; eauto.
Qed.

End CrossOrigin.

(** C9: every reply sent through [send_error] (the 400 replies for missing
    credentials, an undecodable key and a missing target URL, the 500
    replies for a transport failure and for any other failure) reaches the
    client without any Access-Control-* header, while the relayed answer,
    the relayed upstream HTTP error, the OPTIONS reply and the static page
    all carry [Access-Control-Allow-Origin: *],
    [Access-Control-Allow-Methods: GET, POST, OPTIONS] and
    [Access-Control-Allow-Headers: Content-Type, Authorization, X-API-Key,
    X-OpenWebUI-URL]. *)
Theorem C9_error_path_without_cors
    (rt : PyRuntime) (urlopen : Outbound -> Upstream) (h : Host)
    (req : Request) :
  let cors : list header :=
    [ ("Access-Control-Allow-Origin", "*");
      ("Access-Control-Allow-Methods", "GET, POST, OPTIONS");
      ("Access-Control-Allow-Headers",
       "Content-Type, Authorization, X-API-Key, X-OpenWebUI-URL") ] in
  let response := respond urlopen h req in
  let no_cors := forall k v, In (k, v) (response_headers response) ->
                             cross_origin k = false in
  (* the replies of the error path *)
  (match fst (handle urlopen h req) with
   | SendError code message =>
       (code = 400 \/ code = 404 \/ code = 500)%Z /\ no_cors
   | Send code hdrs body =>
       (code = 404%Z /\ hdrs = [] /\ body = "Not Found")
       \/ incl cors (response_headers response)
   end)
  /\ (command req <> OPTIONS -> PyStr.startswith (path req) "/proxy/" = true ->
      forall reply, resolve_api_key h req = inl reply ->
      status response = 400%Z /\ no_cors)
  /\ (command req <> OPTIONS -> PyStr.startswith (path req) "/proxy/" = true ->
      forall api_key reply,
        resolve_api_key h req = inr api_key ->
        resolve_openwebui_url h req = inl reply ->
        status response = 400%Z /\ no_cors)
  /\ (forall out reason,
        outbound_calls urlopen h req = [out] ->
        urlopen out = URLError reason \/ urlopen out = OtherError reason ->
        status response = 500%Z /\ no_cors)
  (* the replies that carry the cross-origin headers *)
  /\ (forall out st hs body,
        outbound_calls urlopen h req = [out] ->
        urlopen out = Answered st hs body ->
        incl cors (response_headers response))
  /\ (forall out code reason,
        outbound_calls urlopen h req = [out] ->
        urlopen out = HTTPError code reason ->
        incl cors (response_headers response))
  /\ (command req = OPTIONS ->
      status response = 200%Z /\ incl cors (response_headers response))
  /\ (command req = GET -> path req = "/" \/ path req = "/webchat.html" ->
      forall content, webchat_html h = Some content ->
      status response = 200%Z /\ incl cors (response_headers response))
  /\ (forall k v, In (k, v) cors -> cross_origin k = true).
Proof.
  intros cors response no_cors. subst response no_cors.
  assert (Hcors : forall code hdrs body,
            incl send_cors_headers hdrs ->
            incl cors (response_headers (render (Send code hdrs body)))).
  { intros code hdrs body H. apply send_keeps_cors. exact H. }
  split; [|split; [|split; [|split; [|split; [|split; [|split; [|split]]]]]]].
  - unfold respond.
    destruct (handle_routes urlopen h req)
      as [(_ & _ & E) | [(_ & E) | [(_ & _ & E) | (_ & _ & E)]]]; rewrite E.
    + unfold handle_proxy_request.
      destruct (prepare h req) as [reply|out] eqn:Hprep; cbn [fst].
      * destruct (prepare_reply h req reply Hprep) as (code & m & -> & Hcode).
        split; [tauto | apply send_error_no_cors].
      * pose proof (relay_reply (urlopen out)) as Hr.
        destruct (relay (urlopen out)) as [code m | code hdrs body].
        -- destruct Hr as [-> _]. split; [tauto | apply send_error_no_cors].
        -- right. apply Hcors. apply Hr.
    + cbn [fst]. right. apply Hcors. apply incl_refl.
    + cbn [fst]. unfold serve_webchat_file. destruct (webchat_html h).
      * right. apply Hcors. apply incl_tl, incl_refl.
      * split; [tauto | apply send_error_no_cors].
    + cbn [fst]. left. repeat split.
  - intros Hc Hp reply E. unfold respond.
    rewrite (rejected_at_credentials urlopen h req reply Hc Hp E). cbn [fst].
    destruct (resolve_api_key_rejects h req reply E) as [-> | [e ->]];
      (split; [reflexivity | apply send_error_no_cors]).
  - intros Hc Hp api_key reply Hk E. unfold respond.
    rewrite handle_proxy_route by assumption.
    unfold handle_proxy_request, prepare. rewrite Hp, Hk, E. cbn [fst].
    rewrite (resolve_openwebui_url_rejects h req reply E).
    split; [reflexivity | apply send_error_no_cors].
  - intros out reason Hcalls Hup. unfold respond.
    rewrite (relayed rt urlopen h req out Hcalls).
    destruct Hup as [-> | ->]; cbn [relay];
      (split; [reflexivity | apply send_error_no_cors]).
  - intros out st hs body Hcalls Hup. unfold respond.
    rewrite (relayed rt urlopen h req out Hcalls), Hup. cbn [relay].
    apply Hcors. intros x Hx. apply in_or_app. now right.
  - intros out code reason Hcalls Hup. unfold respond.
    rewrite (relayed rt urlopen h req out Hcalls), Hup. cbn [relay].
    apply Hcors. apply incl_tl, incl_refl.
  - intros Hc. unfold respond, handle. rewrite Hc. cbn [fst].
    split; [reflexivity | apply Hcors, incl_refl].
  - intros Hc Hp content Hw. unfold respond.
    assert (E : handle urlopen h req = (serve_webchat_file h, [])).
    { unfold handle, do_GET. rewrite Hc.
      destruct Hp as [-> | ->]; reflexivity. }
    rewrite E. cbn [fst]. unfold serve_webchat_file. rewrite Hw.
    split; [reflexivity | apply Hcors, incl_tl, incl_refl].
  - intros k v H. cbn [In] in H.
    repeat (destruct H as [H|H]; [inversion H; subst; reflexivity|]). elim H.
Qed.

(** Witness of C9: an OPTIONS request carries the three headers; a chat
    request without credentials carries none of them. *)
Lemma C9_error_path_witness :
  let h := Sample.bare_host in
  let preflight := mkRequest OPTIONS "/proxy/chat/completions" [] "" in
  let unauthorised := Sample.chat_request [] in
  (In ("Access-Control-Allow-Origin", "*")
      (response_headers
         (respond (rt := Sample.runtime) Sample.upstream_ok h preflight))
   /\ status (respond (rt := Sample.runtime) Sample.upstream_ok h preflight)
      = 200%Z)
  /\ (status (respond (rt := Sample.runtime) Sample.upstream_ok h unauthorised)
      = 400%Z
      /\ forall k v,
           In (k, v)
              (response_headers
                 (respond (rt := Sample.runtime) Sample.upstream_ok h
                    unauthorised)) ->
           cross_origin k = false).
Proof.
  intros h preflight unauthorised. split.
  - destruct (C9_error_path_without_cors Sample.runtime Sample.upstream_ok h
                preflight) as (_ & _ & _ & _ & _ & _ & Hoptions & _).
    destruct (Hoptions eq_refl) as [Hstatus Hincl].
    split; [apply Hincl; now left | exact Hstatus].
  - destruct (C9_error_path_without_cors Sample.runtime Sample.upstream_ok h
                unauthorised) as (_ & Hcred & _).
    apply (Hcred ltac:(discriminate) eq_refl
             (SendError 400
                "Missing X-API-Key header or server-side OPENWEBUI_API_KEY environment variable")).
    reflexivity.
Defined.

(** ** The path check of [handle_proxy_request] *)

(** C10: a handled request never gets the 400 "Invalid proxy path" reply:
    [handle] hands a request to [handle_proxy_request] only when its path
    starts with ["/proxy/"], and answers the other requests itself and
    without it, although [handle_proxy_request] alone would give that
    reply to a path without the prefix. *)
Theorem C10_invalid_proxy_path_unreachable
    (rt : PyRuntime) (urlopen : Outbound -> Upstream) (h : Host)
    (req : Request) :
  fst (handle urlopen h req) <> SendError 400 "Invalid proxy path"
  /\ ((PyStr.startswith (path req) "/proxy/" = true
       /\ handle urlopen h req = handle_proxy_request urlopen h req
       /\ exists api_endpoint, path req = "/proxy/" ++ api_endpoint)
      \/ (handle urlopen h req = (do_OPTIONS, [])
          \/ handle urlopen h req = (serve_webchat_file h, [])
          \/ handle urlopen h req = (Send 404 [] "Not Found", [])))
  /\ (forall other : Request,
        PyStr.startswith (path other) "/proxy/" = false ->
        handle_proxy_request urlopen h other
        = (SendError 400 "Invalid proxy path", [])).
Proof.
  split; [|split].
  - destruct (handle_routes urlopen h req)
      as [(_ & Hp & E) | [(_ & E) | [(_ & _ & E) | (_ & _ & E)]]]; rewrite E.
    + unfold handle_proxy_request.
      destruct (prepare h req) as [reply|out] eqn:Hprep; cbn [fst].
      * destruct (prepare_rejects h req reply Hprep)
          as [[_ Hf] | [-> | [[e ->] | [-> | [e ->]]]]];
          [congruence | | | |]; intros Habs; inversion Habs.
      * pose proof (relay_reply (urlopen out)) as Hr.
        destruct (relay (urlopen out)) as [code m | code hdrs body];
          [|discriminate].
        destruct Hr as [-> _]. intros Habs. inversion Habs.
    + discriminate.
    + cbn [fst]. unfold serve_webchat_file. destruct (webchat_html h);
        intros Habs; inversion Habs.
    + discriminate.
  - destruct (handle_routes urlopen h req)
      as [(_ & Hp & E) | [(_ & E) | [(_ & _ & E) | (_ & _ & E)]]].
    + left. repeat split; auto. eexists. now apply startswith_append.
    + right. now left.
    + right. right. now left.
    + right. right. now right.
  - intros other Hp. unfold handle_proxy_request, prepare. now rewrite Hp.
Qed.

(** ** Further properties of the proxy forwarder *)

Section Forwarder.

Context {rt : PyRuntime}.

(** A request of the proxy route with resolved credentials that is turned
    down afterwards, before the call. *)
Lemma rejected_after_credentials (urlopen : Outbound -> Upstream) (h : Host)
    (req : Request) (api_key : string) :
  command req <> OPTIONS -> PyStr.startswith (path req) "/proxy/" = true ->
  resolve_api_key h req = inr api_key ->
  handle urlopen h req =
    match resolve_openwebui_url h req with
    | inl reply => (reply, [])
    | inr openwebui_url =>
        match build_request req
                (target_url openwebui_url
                   (PyStr.drop (String.length "/proxy/") (path req)))
                (proxy_headers api_key) with
        | inl reply => (reply, [])
        | inr out => (relay (urlopen out), [out])
        end
    end.
Proof.
  intros Hc Hp Hk. rewrite handle_proxy_route by assumption.
  unfold handle_proxy_request, prepare. rewrite Hp, Hk.
  destruct (resolve_openwebui_url h req); [reflexivity|].
  now destruct (build_request req _ _).
Qed.

(** [truthy] hands over a non-empty string only. *)
Lemma truthy_some (o : option string) (s : string) :
  truthy o = Some s <-> o = Some s /\ s <> "".
Proof.
  destruct o as [t|]; simpl; [|split; [discriminate | intros [E _]; discriminate]].
  unfold PyStr.truthy. destruct (String.eqb_spec t ""); simpl; split.
  - discriminate.
  - intros [E Hne]. inversion E. congruence.
  - intros E. inversion E. subst. now split.
  - intros [E _]. exact E.
Qed.

Lemma truthy_none (o : option string) :
  truthy o = None <-> o = None \/ o = Some "".
Proof.
  destruct o as [t|]; simpl; [|split; auto].
  unfold PyStr.truthy. destruct (String.eqb_spec t ""); simpl; split;
    try discriminate; auto.
  - subst. auto.
  - intros [E|E]; [discriminate | inversion E; contradiction].
Qed.

(** [self.rfile.read(n)] gives the first [n] bytes that are there. *)
Lemma rfile_read_prefix (n : Z) (stream : string) :
  exists rest, stream = rfile_read n stream ++ rest.
Proof.
  unfold rfile_read. generalize (Z.to_nat n) as k. clear n.
  induction stream as [|a s IH]; intros k.
  - exists "". now destruct k.
  - destruct k as [|k]; simpl.
    + now exists (String a s).
    + destruct (IH k) as [rest E]. exists rest. now rewrite <- E.
Qed.

Lemma rfile_read_length (n : Z) (stream : string) :
  String.length (rfile_read n stream)
  = Nat.min (Z.to_nat n) (String.length stream).
Proof.
  unfold rfile_read. generalize (Z.to_nat n) as k. clear n.
  induction stream as [|a s IH]; intros k.
  - now destruct k.
  - destruct k as [|k]; simpl; [reflexivity|]. now rewrite IH.
Qed.

End Forwarder.

(** X1: a proxy request whose credentials resolve, with no (or an empty)
    X-OpenWebUI-URL header and no (or an empty) DEFAULT_OPENWEBUI_URL, gets
    400 with a message naming both, and nothing goes upstream. *)
Theorem X1_missing_target_url
    (rt : PyRuntime) (urlopen : Outbound -> Upstream) (h : Host)
    (req : Request) (api_key : string) :
  command req <> OPTIONS ->
  PyStr.startswith (path req) "/proxy/" = true ->
  resolve_api_key h req = inr api_key ->
  truthy (headers_get (headers req) "X-OpenWebUI-URL") = None ->
  truthy (environ_get (environ h) "DEFAULT_OPENWEBUI_URL") = None ->
  status (respond urlopen h req) = 400%Z
  /\ status_message (respond urlopen h req)
     = Some ("Missing " ++ "X-OpenWebUI-URL" ++ " header or "
               ++ "DEFAULT_OPENWEBUI_URL" ++ " environment variable")
  /\ outbound_calls urlopen h req = [].
Proof.
  intros Hc Hp Hk Hh He. unfold respond, outbound_calls.
  rewrite (rejected_after_credentials urlopen h req api_key Hc Hp Hk).
  unfold resolve_openwebui_url. rewrite Hh, He. repeat split.
Qed.

Lemma X1_missing_target_url_witness :
  let urlopen := Sample.upstream_ok in
  let h := mkHost [ ("OPENWEBUI_API_KEY", "sk-server");
                    ("DEFAULT_OPENWEBUI_URL", "") ] None in
  let req := mkRequest GET "/proxy/models" [ ("X-OpenWebUI-URL", "") ] "" in
  (command req <> OPTIONS
   /\ PyStr.startswith (path req) "/proxy/" = true
   /\ resolve_api_key (rt := Sample.runtime) h req = inr "sk-server"
   /\ truthy (headers_get (headers req) "X-OpenWebUI-URL") = None
   /\ truthy (environ_get (environ h) "DEFAULT_OPENWEBUI_URL") = None)
  /\ status (respond (rt := Sample.runtime) urlopen h req) = 400%Z
  /\ status_message (respond (rt := Sample.runtime) urlopen h req)
     = Some ("Missing " ++ "X-OpenWebUI-URL" ++ " header or "
               ++ "DEFAULT_OPENWEBUI_URL" ++ " environment variable")
  /\ outbound_calls (rt := Sample.runtime) urlopen h req = [].
Proof.
  intros urlopen h req.
  split; [repeat split; try reflexivity; discriminate|].
  apply (X1_missing_target_url Sample.runtime urlopen h req "sk-server");
    [discriminate | reflexivity | reflexivity | reflexivity | reflexivity].
Defined.

(** X2: the target URL of a request sent upstream is built on the
    X-OpenWebUI-URL header when it is there and not empty, whatever
    DEFAULT_OPENWEBUI_URL says; only otherwise on a non-empty
    DEFAULT_OPENWEBUI_URL. *)
Theorem X2_url_header_over_default
    (rt : PyRuntime) (urlopen : Outbound -> Upstream) (h : Host)
    (req : Request) (out : Outbound) :
  In out (outbound_calls urlopen h req) ->
  let api_endpoint := PyStr.drop 7 (path req) in
  (forall u, headers_get (headers req) "X-OpenWebUI-URL" = Some u -> u <> "" ->
     full_url out = target_url u api_endpoint)
  /\ (truthy (headers_get (headers req) "X-OpenWebUI-URL") = None ->
      exists d, environ_get (environ h) "DEFAULT_OPENWEBUI_URL" = Some d
                /\ d <> "" /\ full_url out = target_url d api_endpoint).
Proof.
  intros Hin api_endpoint.
  destruct (sent_upstream urlopen h req out Hin) as (k & u & _ & _ & _ & Hu & Hb & _).
  apply build_request_fields in Hb. destruct Hb as [Hurl _].
  change (String.length "/proxy/") with 7%nat in Hurl. fold api_endpoint in Hurl.
  unfold resolve_openwebui_url in Hu. split.
  - intros v Hv Hne.
    assert (T : truthy (headers_get (headers req) "X-OpenWebUI-URL") = Some v)
      by now apply truthy_some.
    rewrite T in Hu. inversion Hu. now subst.
  - intros T. rewrite T in Hu.
    destruct (truthy (environ_get (environ h) "DEFAULT_OPENWEBUI_URL")) as [d|] eqn:D;
      [|discriminate].
    apply truthy_some in D. destruct D as [D Hne].
    inversion Hu. subst. eauto.
Qed.

Lemma X2_url_header_witness :
  let urlopen := Sample.upstream_ok in
  let h := Sample.keyed_host in
  let req := mkRequest GET "/proxy/models"
               [ ("x-openwebui-url", "http://other:3000") ] "" in
  let out := mkOutbound "http://other:3000/models" None
               (proxy_headers "sk-server") "GET" in
  In out (outbound_calls (rt := Sample.runtime) urlopen h req)
  /\ (let api_endpoint := PyStr.drop 7 (path req) in
      (forall u, headers_get (headers req) "X-OpenWebUI-URL" = Some u ->
         u <> "" -> full_url out = target_url u api_endpoint)
      /\ (truthy (headers_get (headers req) "X-OpenWebUI-URL") = None ->
          exists d, environ_get (environ h) "DEFAULT_OPENWEBUI_URL" = Some d
                    /\ d <> "" /\ full_url out = target_url d api_endpoint)).
Proof.
  intros urlopen h req out. split; [now left|].
  apply (X2_url_header_over_default Sample.runtime urlopen h req out). now left.
Defined.

(** X3: with no server-wide token, an X-API-Key header that is there but
    empty is answered as a missing one: 400 with the missing-credentials
    message, not the decoding one, and nothing goes upstream. *)
Theorem X3_empty_key_is_missing
    (rt : PyRuntime) (urlopen : Outbound -> Upstream) (h : Host)
    (req : Request) :
  command req <> OPTIONS ->
  PyStr.startswith (path req) "/proxy/" = true ->
  truthy (environ_get (environ h) "OPENWEBUI_API_KEY") = None ->
  headers_get (headers req) "X-API-Key" = Some "" ->
  fst (handle urlopen h req)
  = SendError 400
      "Missing X-API-Key header or server-side OPENWEBUI_API_KEY environment variable"
  /\ status (respond urlopen h req) = 400%Z
  /\ outbound_calls urlopen h req = [].
Proof.
  intros Hc Hp Hno Hget.
  assert (E : resolve_api_key h req
              = inl (SendError 400
                       "Missing X-API-Key header or server-side OPENWEBUI_API_KEY environment variable")).
  { now rewrite (client_key_decides h req Hno), Hget. }
  unfold respond, outbound_calls.
  rewrite (rejected_at_credentials urlopen h req _ Hc Hp E).
  repeat split.
Qed.

Lemma X3_empty_key_witness :
  let urlopen := Sample.upstream_ok in
  let h := Sample2.open_host in
  let req := Sample.chat_request [ ("X-API-Key", "") ] in
  (command req <> OPTIONS
   /\ PyStr.startswith (path req) "/proxy/" = true
   /\ truthy (environ_get (environ h) "OPENWEBUI_API_KEY") = None
   /\ headers_get (headers req) "X-API-Key" = Some "")
  /\ fst (handle (rt := Sample.runtime) urlopen h req)
     = SendError 400
         "Missing X-API-Key header or server-side OPENWEBUI_API_KEY environment variable"
  /\ status (respond (rt := Sample.runtime) urlopen h req) = 400%Z
  /\ outbound_calls (rt := Sample.runtime) urlopen h req = [].
Proof.
  intros urlopen h req.
  split; [repeat split; try reflexivity; discriminate|].
  apply (X3_empty_key_is_missing Sample.runtime urlopen h req);
    [discriminate | reflexivity | reflexivity | reflexivity].
Defined.

(** X4: when OPENWEBUI_API_KEY is unset or empty, the bearer token of a
    request sent upstream is the decoded X-API-Key header. *)
Theorem X4_client_key_is_bearer
    (rt : PyRuntime) (urlopen : Outbound -> Upstream) (h : Host)
    (req : Request) (out : Outbound) (encoded api_key : string) :
  environ_get (environ h) "OPENWEBUI_API_KEY" = None
  \/ environ_get (environ h) "OPENWEBUI_API_KEY" = Some "" ->
  headers_get (headers req) "X-API-Key" = Some encoded ->
  b64decode_utf8 encoded = inr api_key ->
  In out (outbound_calls urlopen h req) ->
  headers_get (out_headers out) "Authorization" = Some ("Bearer " ++ api_key).
Proof.
  intros Hno Hget Hdec Hin. apply truthy_none in Hno.
  destruct (sent_upstream urlopen h req out Hin) as (k & u & _ & _ & Hk & _ & Hb & _).
  apply build_request_fields in Hb. destruct Hb as [_ ->].
  rewrite (client_key_decides h req Hno), Hget in Hk.
  destruct (truthy (Some encoded)) as [e|] eqn:T; [|discriminate].
  apply truthy_some in T. destruct T as [T _]. inversion T. subst e.
  rewrite Hdec in Hk. inversion Hk. reflexivity.
Qed.

Lemma X4_client_key_witness :
  let urlopen := Sample.upstream_ok in
  let h := mkHost [ ("OPENWEBUI_API_KEY", "");
                    ("DEFAULT_OPENWEBUI_URL", "https://host") ] None in
  let req := Sample.chat_request [ ("X-API-Key", "c2VjcmV0") ] in
  let out := mkOutbound "https://host/api/v1/chat/completions"
               (Some "{'model':'m'}") (proxy_headers "secret") "POST" in
  ((environ_get (environ h) "OPENWEBUI_API_KEY" = None
    \/ environ_get (environ h) "OPENWEBUI_API_KEY" = Some "")
   /\ headers_get (headers req) "X-API-Key" = Some "c2VjcmV0"
   /\ b64decode_utf8 (PyRuntime := Sample.runtime) "c2VjcmV0" = inr "secret"
   /\ In out (outbound_calls (rt := Sample.runtime) urlopen h req))
  /\ headers_get (out_headers out) "Authorization"
     = Some ("Bearer " ++ "secret").
Proof.
  intros urlopen h req out.
  split; [repeat split; try reflexivity; [now right | now left]|].
  apply (X4_client_key_is_bearer Sample.runtime urlopen h req out
           "c2VjcmV0" "secret");
    [now right | reflexivity | reflexivity | now left].
Defined.

(** X5: the request sent upstream mirrors the method.  For a GET it is a
    GET without body.  For a POST it is a POST whose body is a prefix of
    the bytes waiting on [rfile]: as many as Content-Length says and are
    there, none when the header is missing or its value is not positive. *)
Theorem X5_outbound_body
    (rt : PyRuntime) (urlopen : Outbound -> Upstream) (h : Host)
    (req : Request) (out : Outbound) :
  In out (outbound_calls urlopen h req) ->
  match command req with
  | POST =>
      method out = "POST"
      /\ exists post_data rest,
           data out = Some post_data
           /\ rfile req = post_data ++ rest
           /\ match headers_get (headers req) "Content-Length" with
              | None => post_data = ""
              | Some s =>
                  exists n, int_of_str s = inr n
                            /\ String.length post_data
                               = Nat.min (Z.to_nat n) (String.length (rfile req))
              end
  | _ => method out = "GET" /\ data out = None
  end.
Proof.
  intros Hin.
  destruct (sent_upstream urlopen h req out Hin) as (k & u & Hc & _ & _ & _ & Hb & _).
  unfold build_request in Hb. cbv beta zeta in Hb.
  destruct (command req); [now elim Hc | |]; cbn [Command_eqb] in Hb.
  - destruct (request_error _); [discriminate|]. inversion Hb. now split.
  - destruct (headers_get (headers req) "Content-Length") as [s|].
    + destruct (int_of_str s) as [e|n] eqn:Hn; [discriminate|].
      destruct (Z.ltb_spec 0 n) as [Hpos|Hneg].
      * destruct (read_error n); [discriminate|].
        destruct (request_error _); [discriminate|].
        inversion Hb. cbn [method data]. split; [reflexivity|].
        destruct (rfile_read_prefix n (rfile req)) as [rest E].
        exists (rfile_read n (rfile req)), rest.
        repeat split; auto. exists n. split; [reflexivity|].
        apply rfile_read_length.
      * destruct (request_error _); [discriminate|].
        inversion Hb. cbn [method data]. split; [reflexivity|].
        exists "", (rfile req). repeat split. exists n. split; [reflexivity|].
        replace (Z.to_nat n) with 0%nat by lia. reflexivity.
    + cbn in Hb. destruct (request_error _); [discriminate|].
      inversion Hb. cbn [method data]. split; [reflexivity|].
      exists "", (rfile req). now repeat split.
Qed.

Lemma X5_outbound_body_witness :
  let urlopen := Sample.upstream_ok in
  let h := Sample.keyed_host in
  let req := Sample.chat_request [] in
  let out := mkOutbound "https://host/api/v1/chat/completions"
               (Some "{'model':'m'}") (proxy_headers "sk-server") "POST" in
  In out (outbound_calls (rt := Sample.runtime) urlopen h req)
  /\ (method out = "POST"
      /\ exists post_data rest,
           data out = Some post_data
           /\ rfile req = post_data ++ rest
           /\ exists n, int_of_str (PyRuntime := Sample.runtime) "13" = inr n
                        /\ String.length post_data
                           = Nat.min (Z.to_nat n) (String.length (rfile req))).
Proof.
  intros urlopen h req out. split; [now left|].
  apply (X5_outbound_body Sample.runtime urlopen h req out). now left.
Defined.

(** X6: a POST whose Content-Length is not an integer is answered 500 with
    the text of the failure after ["Request failed with error: "], and
    nothing goes upstream. *)
Theorem X6_bad_content_length
    (rt : PyRuntime) (urlopen : Outbound -> Upstream) (h : Host)
    (req : Request) (api_key openwebui_url s e : string) :
  command req = POST ->
  PyStr.startswith (path req) "/proxy/" = true ->
  resolve_api_key h req = inr api_key ->
  resolve_openwebui_url h req = inr openwebui_url ->
  headers_get (headers req) "Content-Length" = Some s ->
  int_of_str s = inl e ->
  status (respond urlopen h req) = 500%Z
  /\ status_message (respond urlopen h req)
     = Some ("Request failed with error: " ++ e)
  /\ outbound_calls urlopen h req = [].
Proof.
  intros Hc Hp Hk Hu Hs He. unfold respond, outbound_calls.
  rewrite (rejected_after_credentials urlopen h req api_key) by congruence.
  rewrite Hu. unfold build_request. cbv beta zeta. rewrite Hc, Hs, He.
  repeat split.
Qed.

Lemma X6_bad_content_length_witness :
  let urlopen := Sample.upstream_ok in
  let h := Sample.keyed_host in
  let req := mkRequest POST "/proxy/chat/completions"
               [ ("Content-Length", "ten") ] "0123456789" in
  (command req = POST
   /\ PyStr.startswith (path req) "/proxy/" = true
   /\ resolve_api_key (rt := Sample.runtime) h req = inr "sk-server"
   /\ resolve_openwebui_url h req = inr "https://host/"
   /\ headers_get (headers req) "Content-Length" = Some "ten"
   /\ int_of_str (PyRuntime := Sample.runtime) "ten"
      = inl "invalid literal for int() with base 10: 'ten'")
  /\ status (respond (rt := Sample.runtime) urlopen h req) = 500%Z
  /\ status_message (respond (rt := Sample.runtime) urlopen h req)
     = Some ("Request failed with error: "
               ++ "invalid literal for int() with base 10: 'ten'")
  /\ outbound_calls (rt := Sample.runtime) urlopen h req = [].
Proof.
  intros urlopen h req. split; [repeat split|].
  apply (X6_bad_content_length Sample.runtime urlopen h req "sk-server"
           "https://host/" "ten"
           "invalid literal for int() with base 10: 'ten'");
    reflexivity.
Defined.

(** X7: when the upstream call fails below HTTP, the reply is 500 through
    [send_error]: the message is ["URL Error: "] and the reason for a
    [URLError], ["Request failed with error: "] and the description for
    any other failure; the body is the error page of the base class. *)
Theorem X7_transport_failure
    (rt : PyRuntime) (urlopen : Outbound -> Upstream) (h : Host)
    (req : Request) (out : Outbound) :
  outbound_calls urlopen h req = [out] ->
  (forall reason, urlopen out = URLError reason ->
     respond urlopen h req = render (SendError 500 ("URL Error: " ++ reason))
     /\ status (respond urlopen h req) = 500%Z
     /\ response_body (respond urlopen h req)
        = error_page 500 ("URL Error: " ++ reason))
  /\ (forall description, urlopen out = OtherError description ->
        respond urlopen h req
        = render (SendError 500 ("Request failed with error: " ++ description))
        /\ status (respond urlopen h req) = 500%Z
        /\ response_body (respond urlopen h req)
           = error_page 500 ("Request failed with error: " ++ description)).
Proof.
  intros Hcalls. unfold respond.
  rewrite (relayed rt urlopen h req out Hcalls).
  split; intros x ->; repeat split.
Qed.

Lemma X7_transport_failure_witness :
  let urlopen := Sample2.upstream_refused in
  let h := Sample.keyed_host in
  let req := Sample.models_request in
  let out := mkOutbound "https://host/models" None
               (proxy_headers "sk-server") "GET" in
  outbound_calls (rt := Sample.runtime) urlopen h req = [out]
  /\ (forall reason, urlopen out = URLError reason ->
        respond (rt := Sample.runtime) urlopen h req
        = render (rt := Sample.runtime) (SendError 500 ("URL Error: " ++ reason))
        /\ status (respond (rt := Sample.runtime) urlopen h req) = 500%Z
        /\ response_body (respond (rt := Sample.runtime) urlopen h req)
           = error_page (PyRuntime := Sample.runtime) 500 ("URL Error: " ++ reason)).
Proof.
  intros urlopen h req out. split; [reflexivity|].
  exact (proj1 (X7_transport_failure Sample.runtime urlopen h req out eq_refl)).
Defined.

(** X8: a request is sent upstream exactly when the request is a GET or a
    POST of the proxy route, the credentials and the target resolve, the
    [Request] constructor accepts the target URL and, for a POST, a
    Content-Length header, when there is one, is an integer and reading
    that many bytes, when positive, does not raise; it is then sent once. *)
Theorem X8_when_upstream_is_called
    (rt : PyRuntime) (urlopen : Outbound -> Upstream) (h : Host)
    (req : Request) :
  (outbound_calls urlopen h req <> [] <->
   command req <> OPTIONS
   /\ PyStr.startswith (path req) "/proxy/" = true
   /\ (exists api_key, resolve_api_key h req = inr api_key)
   /\ (exists openwebui_url,
         resolve_openwebui_url h req = inr openwebui_url
         /\ request_error (target_url openwebui_url (PyStr.drop 7 (path req)))
            = None)
   /\ (command req = POST ->
       forall s, headers_get (headers req) "Content-Length" = Some s ->
                 exists n, int_of_str s = inr n
                           /\ ((0 < n)%Z -> read_error n = None)))
  /\ (List.length (outbound_calls urlopen h req) <= 1)%nat.
Proof.
  split; [split|].
  - intros Hne. destruct (outbound_calls urlopen h req) as [|out rest] eqn:E;
      [now elim Hne|].
    destruct (sent_upstream urlopen h req out) as (k & u & Hc & Hp & Hk & Hu & Hb & _).
    { unfold outbound_calls in E. rewrite E. now left. }
    change (String.length "/proxy/") with 7%nat in Hb.
    repeat split; eauto.
    + exists u. split; [exact Hu|]. now apply build_request_accepted in Hb.
    + intros Hpost s Hs. unfold build_request in Hb. cbv beta zeta in Hb.
      rewrite Hpost, Hs in Hb. cbn [Command_eqb] in Hb.
      destruct (int_of_str s) as [e|n]; [discriminate|].
      exists n. split; [reflexivity|]. intros Hpos.
      apply Z.ltb_lt in Hpos. rewrite Hpos in Hb.
      now destruct (read_error n).
  - intros (Hc & Hp & [k Hk] & (u & Hu & Hreq) & Hlen). unfold outbound_calls.
    rewrite (rejected_after_credentials urlopen h req k Hc Hp Hk), Hu.
    change (String.length "/proxy/") with 7%nat.
    unfold build_request. cbv beta zeta. rewrite Hreq.
    destruct (command req) eqn:Ec; [now elim Hc | discriminate |].
    cbn [Command_eqb].
    destruct (headers_get (headers req) "Content-Length") as [s|];
      [|discriminate].
    destruct (Hlen eq_refl s eq_refl) as (n & -> & Hread).
    destruct (Z.ltb_spec 0 n) as [Hpos|Hneg]; [|discriminate].
    rewrite (Hread Hpos). discriminate.
  - apply single_attempt.
Qed.

(** X9: the status of a response is 200, 400, 404 or 500, or the status
    with which the upstream answered the one request that was sent. *)
Theorem X9_status_codes
    (rt : PyRuntime) (urlopen : Outbound -> Upstream) (h : Host)
    (req : Request) :
  In (status (respond urlopen h req)) [200; 400; 404; 500]%Z
  \/ exists out,
       outbound_calls urlopen h req = [out]
       /\ ((exists hs body,
              urlopen out = Answered (status (respond urlopen h req)) hs body)
           \/ (exists reason,
                 urlopen out = HTTPError (status (respond urlopen h req)) reason)).
Proof.
  unfold respond, outbound_calls.
  destruct (handle_routes urlopen h req)
    as [(_ & _ & E) | [(_ & E) | [(_ & _ & E) | (_ & _ & E)]]]; rewrite E.
  - unfold handle_proxy_request.
    destruct (prepare h req) as [reply|out] eqn:Hprep; cbn [fst snd].
    + destruct (prepare_reply h req reply Hprep) as (code & m & -> & [-> | ->]);
        left; cbn; tauto.
    + destruct (urlopen out) as [st hs b | code reason | reason | d] eqn:Hup;
        cbn [relay render status].
      * right. exists out. split; [reflexivity|]. left. eauto.
      * right. exists out. split; [reflexivity|]. right. eauto.
      * left. cbn. tauto.
      * left. cbn. tauto.
  - left. cbn. tauto.
  - cbn [fst]. unfold serve_webchat_file. destruct (webchat_html h);
      left; cbn; tauto.
  - left. cbn. tauto.
Qed.

(** ** Further properties of the static responder *)

(** X10: a GET of ["/"] or ["/webchat.html"] is answered from the file
    alone, whatever the headers, the environment and the upstream: 200,
    content type text/html and the file's bytes when the file is there,
    404 with the message ["webchat.html not found"] when it is not; and
    nothing goes upstream. *)
Theorem X10_static_page
    (rt : PyRuntime) (urlopen : Outbound -> Upstream) (h : Host)
    (req : Request) :
  command req = GET ->
  path req = "/" \/ path req = "/webchat.html" ->
  outbound_calls urlopen h req = []
  /\ match webchat_html h with
     | Some content =>
         status (respond urlopen h req) = 200%Z
         /\ response_body (respond urlopen h req) = content
         /\ In ("Content-type", "text/html")
               (response_headers (respond urlopen h req))
     | None =>
         status (respond urlopen h req) = 404%Z
         /\ status_message (respond urlopen h req)
            = Some "webchat.html not found"
     end.
Proof.
  intros Hc Hp. unfold respond, outbound_calls.
  destruct (handle_routes urlopen h req)
    as [(_ & Hp' & _) | [(E & _) | [(_ & _ & E) | (_ & Hp' & E)]]];
    try congruence.
  - apply static_path_not_proxy in Hp. congruence.
  - rewrite E. split; [reflexivity|]. cbn [fst]. unfold serve_webchat_file.
    destruct (webchat_html h); repeat split.
    cbn. right. right. now left.
  - exfalso. unfold handle, do_GET in E. rewrite Hc in E.
    destruct Hp as [Hp|Hp]; rewrite Hp in E; cbn in E;
      unfold serve_webchat_file in E; destruct (webchat_html h); discriminate.
Qed.

Lemma X10_static_page_witness :
  let urlopen := Sample2.upstream_refused in
  let h := Sample2.open_host in
  let req := mkRequest GET "/webchat.html" [ ("X-API-Key", "???") ] "" in
  (command req = GET /\ (path req = "/" \/ path req = "/webchat.html"))
  /\ outbound_calls (rt := Sample.runtime) urlopen h req = []
  /\ status (respond (rt := Sample.runtime) urlopen h req) = 200%Z
  /\ response_body (respond (rt := Sample.runtime) urlopen h req)
     = "<html></html>"
  /\ In ("Content-type", "text/html")
        (response_headers (respond (rt := Sample.runtime) urlopen h req)).
Proof.
  intros urlopen h req. split; [split; [reflexivity | now right]|].
  apply (X10_static_page Sample.runtime urlopen h req);
    [reflexivity | now right].
Defined.

(** X11: the static page is served to GET only: a POST of ["/"] or of
    ["/webchat.html"] is answered 404 "Not Found", without reading the
    file. *)
Theorem X11_post_never_static
    (rt : PyRuntime) (urlopen : Outbound -> Upstream) (h : Host)
    (req : Request) :
  command req = POST ->
  path req = "/" \/ path req = "/webchat.html" ->
  handle urlopen h req = (Send 404 [] "Not Found", [])
  /\ status (respond urlopen h req) = 404%Z
  /\ response_body (respond urlopen h req) = "Not Found".
Proof.
  intros Hc Hp. apply static_path_not_proxy in Hp.
  assert (E : handle urlopen h req = (Send 404 [] "Not Found", [])).
  { unfold handle, do_POST. now rewrite Hc, Hp. }
  unfold respond. rewrite E. repeat split.
Qed.

Lemma X11_post_never_static_witness :
  let urlopen := Sample.upstream_ok in
  let h := Sample2.open_host in
  let req := mkRequest POST "/" [] "" in
  (command req = POST /\ (path req = "/" \/ path req = "/webchat.html"))
  /\ handle (rt := Sample.runtime) urlopen h req = (Send 404 [] "Not Found", [])
  /\ status (respond (rt := Sample.runtime) urlopen h req) = 404%Z
  /\ response_body (respond (rt := Sample.runtime) urlopen h req) = "Not Found".
Proof.
  intros urlopen h req. split; [split; [reflexivity | now left]|].
  apply (X11_post_never_static Sample.runtime urlopen h req);
    [reflexivity | now left].
Defined.

(** ** What the handler reads *)

Section Reads.

Context {rt : PyRuntime}.

(** [prepare] reads the method, the path, the body stream, three headers
    and two environment variables. *)
Lemma prepare_agree (h1 h2 : Host) (r1 r2 : Request) :
  command r1 = command r2 -> path r1 = path r2 -> rfile r1 = rfile r2 ->
  (forall name, In name ["X-API-Key"; "X-OpenWebUI-URL"; "Content-Length"] ->
     headers_get (headers r1) name = headers_get (headers r2) name) ->
  (forall key, In key ["OPENWEBUI_API_KEY"; "DEFAULT_OPENWEBUI_URL"] ->
     environ_get (environ h1) key = environ_get (environ h2) key) ->
  prepare h1 r1 = prepare h2 r2.
Proof.
  intros Hc Hp Hr Hh He.
  unfold prepare, resolve_api_key, resolve_openwebui_url, build_request.
  rewrite <- Hc, <- Hp, <- Hr.
  rewrite <- (Hh "X-API-Key"), <- (Hh "X-OpenWebUI-URL"), <- (Hh "Content-Length")
    by (cbn; tauto).
  rewrite <- (He "OPENWEBUI_API_KEY"), <- (He "DEFAULT_OPENWEBUI_URL")
    by (cbn; tauto).
  reflexivity.
Qed.

Lemma handle_agree (urlopen : Outbound -> Upstream) (h1 h2 : Host)
    (r1 r2 : Request) :
  command r1 = command r2 -> path r1 = path r2 ->
  webchat_html h1 = webchat_html h2 ->
  prepare h1 r1 = prepare h2 r2 ->
  handle urlopen h1 r1 = handle urlopen h2 r2.
Proof.
  intros Hc Hp Hw Hprep.
  unfold handle, do_GET, do_POST, handle_proxy_request, serve_webchat_file.
  now rewrite <- Hc, <- Hp, <- Hw, <- Hprep.
Qed.

(** A header lookup sees the name through [lower] only. *)
Lemma headers_get_lower (hs : list header) (n1 n2 : string) :
  PyStr.lower n1 = PyStr.lower n2 -> headers_get hs n1 = headers_get hs n2.
Proof.
  intros E. induction hs as [|[k v] hs IH]; simpl; [reflexivity|].
  now rewrite E, IH.
Qed.

Lemma headers_get_same_up_to_case (hs1 hs2 : list header) (name : string) :
  same_up_to_case hs1 hs2 -> headers_get hs1 name = headers_get hs2 name.
Proof.
  induction 1 as [|[k1 v1] [k2 v2] l1 l2 [Hk Hv] _ IH]; simpl; [reflexivity|].
  simpl in Hk, Hv. now rewrite Hk, Hv, IH.
Qed.

(** A lookup that succeeds names a line of the header set. *)
Lemma headers_get_some (hs : list header) (name v : string) :
  headers_get hs name = Some v ->
  exists k, In (k, v) hs /\ PyStr.lower k = PyStr.lower name.
Proof.
  induction hs as [|[k w] hs IH]; simpl; [discriminate|].
  destruct (String.eqb_spec (PyStr.lower k) (PyStr.lower name)) as [E|E].
  - intros H. inversion H. subst. exists k. split; [now left | exact E].
  - intros H. destruct (IH H) as (k' & Hin & Hk). exists k'. split; [now right | exact Hk].
Qed.

Lemma headers_get_app (hs extra : list header) (name : string) :
  headers_get (hs ++ extra) name =
    match headers_get hs name with
    | Some v => Some v
    | None => headers_get extra name
    end.
Proof.
  induction hs as [|[k v] hs IH]; simpl; [reflexivity|].
  now destruct (String.eqb (PyStr.lower k) (PyStr.lower name)).
Qed.

(** Lines added after a header set under names it already has are not seen. *)
Lemma headers_get_repeats (hs extra : list header) (name : string) :
  (forall k v, In (k, v) extra -> headers_get hs k <> None) ->
  headers_get (hs ++ extra) name = headers_get hs name.
Proof.
  intros Hrep. rewrite headers_get_app.
  destruct (headers_get hs name) eqn:E; [reflexivity|].
  destruct (headers_get extra name) as [v|] eqn:Ex; [|reflexivity].
  destruct (headers_get_some extra name v Ex) as (k & Hin & Hk).
  elim (Hrep k v Hin). now rewrite (headers_get_lower hs k name Hk).
Qed.

End Reads.

(** X12: the response and the request sent upstream depend on the incoming
    headers only through the first X-API-Key, X-OpenWebUI-URL and
    Content-Length, and on the environment only through OPENWEBUI_API_KEY
    and DEFAULT_OPENWEBUI_URL: no other header and no other variable is
    read. *)
Theorem X12_reads_three_headers_two_variables
    (rt : PyRuntime) (urlopen : Outbound -> Upstream) (h1 h2 : Host)
    (r1 r2 : Request) :
  command r1 = command r2 -> path r1 = path r2 -> rfile r1 = rfile r2 ->
  webchat_html h1 = webchat_html h2 ->
  (forall name, In name ["X-API-Key"; "X-OpenWebUI-URL"; "Content-Length"] ->
     headers_get (headers r1) name = headers_get (headers r2) name) ->
  (forall key, In key ["OPENWEBUI_API_KEY"; "DEFAULT_OPENWEBUI_URL"] ->
     environ_get (environ h1) key = environ_get (environ h2) key) ->
  respond urlopen h1 r1 = respond urlopen h2 r2
  /\ outbound_calls urlopen h1 r1 = outbound_calls urlopen h2 r2.
Proof.
  intros Hc Hp Hr Hw Hh He. unfold respond, outbound_calls.
  rewrite (handle_agree urlopen h1 h2 r1 r2 Hc Hp Hw
             (prepare_agree h1 h2 r1 r2 Hc Hp Hr Hh He)).
  now split.
Qed.

Lemma X12_reads_witness :
  let urlopen := Sample.upstream_ok in
  let h1 := Sample.keyed_host in
  let h2 := mkHost [ ("PATH", "/usr/bin");
                     ("DEFAULT_OPENWEBUI_URL", "https://host/");
                     ("OPENWEBUI_API_KEY", "sk-server") ]
                   (Some "<html></html>") in
  let r1 := Sample.chat_request [] in
  let r2 := Sample.chat_request
              [ ("Authorization", "Bearer stolen"); ("Cookie", "a=b");
                ("Host", "localhost:8081") ] in
  respond (rt := Sample.runtime) urlopen h1 r1
  = respond (rt := Sample.runtime) urlopen h2 r2
  /\ outbound_calls (rt := Sample.runtime) urlopen h1 r1
     = outbound_calls (rt := Sample.runtime) urlopen h2 r2.
Proof.
  intros urlopen h1 h2 r1 r2.
  apply (X12_reads_three_headers_two_variables Sample.runtime urlopen
           h1 h2 r1 r2); try reflexivity.
  - intros name H. cbn in H.
    repeat (destruct H as [H|H]; [subst name; reflexivity|]). elim H.
  - intros key H. cbn in H.
    repeat (destruct H as [H|H]; [subst key; reflexivity|]). elim H.
Defined.

(** X13: the letter case of the incoming header names does not matter:
    two requests whose header lines have, one by one, the same value
    under names equal up to case get the same response and cause the same
    upstream request. *)
Theorem X13_header_names_any_case
    (rt : PyRuntime) (urlopen : Outbound -> Upstream) (h : Host)
    (r1 r2 : Request) :
  command r1 = command r2 -> path r1 = path r2 -> rfile r1 = rfile r2 ->
  same_up_to_case (headers r1) (headers r2) ->
  respond urlopen h r1 = respond urlopen h r2
  /\ outbound_calls urlopen h r1 = outbound_calls urlopen h r2.
Proof.
  intros Hc Hp Hr Hs. unfold respond, outbound_calls.
  rewrite (handle_agree urlopen h h r1 r2 Hc Hp eq_refl).
  - now split.
  - apply prepare_agree; auto.
    intros name _. now apply headers_get_same_up_to_case.
Qed.

Lemma X13_header_names_witness :
  let urlopen := Sample.upstream_ok in
  let h := Sample2.open_host in
  let r1 := mkRequest POST "/proxy/chat/completions"
              [ ("Content-Length", "2"); ("X-API-Key", "c2VjcmV0") ] "{}" in
  let r2 := mkRequest POST "/proxy/chat/completions"
              [ ("content-length", "2"); ("X-API-KEY", "c2VjcmV0") ] "{}" in
  same_up_to_case (headers r1) (headers r2)
  /\ respond (rt := Sample.runtime) urlopen h r1
     = respond (rt := Sample.runtime) urlopen h r2
  /\ outbound_calls (rt := Sample.runtime) urlopen h r1
     = outbound_calls (rt := Sample.runtime) urlopen h r2.
Proof.
  intros urlopen h r1 r2.
  assert (S : same_up_to_case (headers r1) (headers r2)).
  { repeat constructor. }
  split; [exact S|].
  apply (X13_header_names_any_case Sample.runtime urlopen h r1 r2);
    [reflexivity | reflexivity | reflexivity | exact S].
Defined.

(** X14: of several lines with one header name the first is used: adding
    lines, after the others, under names that are already there changes
    neither the response nor the request sent upstream. *)
Theorem X14_first_header_line_wins
    (rt : PyRuntime) (urlopen : Outbound -> Upstream) (h : Host)
    (req : Request) (extra : list header) :
  (forall k v, In (k, v) extra -> headers_get (headers req) k <> None) ->
  let req' := mkRequest (command req) (path req) (headers req ++ extra)%list
                (rfile req) in
  respond urlopen h req' = respond urlopen h req
  /\ outbound_calls urlopen h req' = outbound_calls urlopen h req.
Proof.
  intros Hrep req'. unfold respond, outbound_calls.
  rewrite (handle_agree urlopen h h req' req eq_refl eq_refl eq_refl).
  - now split.
  - apply prepare_agree; auto.
    intros name _. cbn [headers req']. now apply headers_get_repeats.
Qed.

Lemma X14_first_header_line_witness :
  let urlopen := Sample.upstream_ok in
  let h := Sample2.open_host in
  let req := mkRequest GET "/proxy/models" [ ("X-API-Key", "c2VjcmV0") ] "" in
  let extra := [ ("x-api-key", "b3RoZXI=") ] in
  (forall k v, In (k, v) extra -> headers_get (headers req) k <> None)
  /\ (let req' := mkRequest (command req) (path req)
                    (headers req ++ extra)%list (rfile req) in
      respond (rt := Sample.runtime) urlopen h req'
      = respond (rt := Sample.runtime) urlopen h req
      /\ outbound_calls (rt := Sample.runtime) urlopen h req'
         = outbound_calls (rt := Sample.runtime) urlopen h req).
Proof.
  intros urlopen h req extra.
  assert (R : forall k v, In (k, v) extra -> headers_get (headers req) k <> None).
  { intros k v [E|[]]. inversion E. discriminate. }
  split; [exact R|].
  exact (X14_first_header_line_wins Sample.runtime urlopen h req extra R).
Defined.

(** ** Further properties of the URL construction *)

Section Slashes.

Import PyStr.

Lemma rstrip_replicate (c : ascii) (n : nat) : rstrip c (replicate n c) = "".
Proof.
  induction n as [|n IH]; simpl; [reflexivity|].
  now rewrite IH, Ascii.eqb_refl.
Qed.

Lemma rstrip_append_replicate (c : ascii) (s : string) (n : nat) :
  rstrip c (s ++ replicate n c) = rstrip c s.
Proof.
  induction s as [|a s IH]; simpl; [apply rstrip_replicate | now rewrite IH].
Qed.

Lemma lstrip_replicate_append (c : ascii) (s : string) (n : nat) :
  lstrip c (replicate n c ++ s) = lstrip c s.
Proof.
  induction n as [|n IH]; simpl; [reflexivity | now rewrite Ascii.eqb_refl].
Qed.

Lemma endswith_after_slash (s : string) :
  endswith (String "/" s) "chat/completions" = endswith s "chat/completions".
Proof.
  apply Bool.eq_iff_eq_true. rewrite !endswith_suffix. split.
  - intros [[|a q] E]; simpl in E; [discriminate|].
    inversion E. now exists q.
  - intros [q ->]. now exists (String "/" q).
Qed.

Lemma endswith_after_slashes (s : string) (m : nat) :
  endswith (replicate m "/" ++ s) "chat/completions"
  = endswith s "chat/completions".
Proof.
  induction m as [|m IH]; simpl replicate; [reflexivity|].
  change (String "/" (replicate m "/") ++ s)
    with (String "/" (replicate m "/" ++ s)).
  now rewrite endswith_after_slash.
Qed.

End Slashes.

(** X15: the target URL does not change when slashes are added at the
    end of the base URL or at the start of the sub-path, however many. *)
Theorem X15_target_url_ignores_extra_slashes
    (openwebui_url api_endpoint : string) (n m : nat) :
  target_url (openwebui_url ++ PyStr.replicate n "/")
             (PyStr.replicate m "/" ++ api_endpoint)
  = target_url openwebui_url api_endpoint.
Proof.
  unfold target_url.
  now rewrite endswith_after_slashes, rstrip_append_replicate,
    lstrip_replicate_append.
Qed.

(** ** Further properties of the relayed HTTP error *)

Section ErrorBody.

Lemma all_printable_append (s t : string) :
  all_printable (s ++ t) = all_printable s && all_printable t.
Proof.
  induction s as [|a s IH]; simpl; [reflexivity|].
  now rewrite IH, andb_assoc.
Qed.

Lemma escape_char_printable (a : ascii) :
  all_printable (Json.escape_char a) = true.
Proof. destruct a as [[] [] [] [] [] [] [] []]; reflexivity. Qed.

Lemma escape_printable (s : string) : all_printable (Json.escape s) = true.
Proof.
  induction s as [|a s IH]; simpl; [reflexivity|].
  now rewrite all_printable_append, escape_char_printable, IH.
Qed.

Lemma encode_basestring_printable (s : string) :
  all_printable (Json.encode_basestring_ascii s) = true.
Proof.
  unfold Json.encode_basestring_ascii.
  change (String Json.dquote (Json.escape s ++ String Json.dquote ""))
    with (String Json.dquote "" ++ Json.escape s ++ String Json.dquote "").
  now rewrite !all_printable_append, escape_printable.
Qed.

Lemma uint_printable (d : Decimal.uint) :
  all_printable (NilEmpty.string_of_uint d) = true.
Proof. induction d; simpl; auto. Qed.

Lemma str_of_int_printable (z : Z) :
  all_printable (PyStr.str_of_int z) = true.
Proof.
  unfold PyStr.str_of_int, NilZero.string_of_int, NilZero.string_of_uint.
  destruct (Z.to_int z) as [d|d]; destruct d; simpl; auto using uint_printable.
Qed.

End ErrorBody.

(** X16: the body of a relayed upstream HTTP error is printable ASCII
    whatever bytes the reason phrase holds: control, quote, backslash and
    non-ASCII characters of the reason only show escaped. *)
Theorem X16_error_body_is_ascii
    (rt : PyRuntime) (urlopen : Outbound -> Upstream) (h : Host)
    (req : Request) (out : Outbound) (code : Z) (reason : string) :
  outbound_calls urlopen h req = [out] ->
  urlopen out = HTTPError code reason ->
  all_printable (response_body (respond urlopen h req)) = true.
Proof.
  intros Hcalls Hup. unfold respond.
  rewrite (relayed rt urlopen h req out Hcalls), Hup.
  cbn [relay render response_body]. rewrite error_response_dumps.
  repeat rewrite all_printable_append.
  rewrite encode_basestring_printable, str_of_int_printable.
  reflexivity.
Qed.

Lemma X16_error_body_witness :
  let reason := String (ascii_of_nat 201) (String (ascii_of_nat 10) "chec") in
  let urlopen := fun _ : Outbound => HTTPError 502 reason in
  let h := Sample.keyed_host in
  let req := Sample.models_request in
  let out := mkOutbound "https://host/models" None
               (proxy_headers "sk-server") "GET" in
  (outbound_calls (rt := Sample.runtime) urlopen h req = [out]
   /\ urlopen out = HTTPError 502 reason
   /\ all_printable reason = false)
  /\ all_printable
       (response_body (respond (rt := Sample.runtime) urlopen h req)) = true.
Proof.
  intros reason urlopen h req out. split; [repeat split|].
  exact (X16_error_body_is_ascii Sample.runtime urlopen h req out 502%Z reason
           eq_refl eq_refl).
Defined.

(** ** The [.env] loader *)

Section DotEnvFacts.

Import DotEnv.

Lemma lstrip_ws_spaces (w s : string) :
  all_space w = true -> lstrip_ws (w ++ s) = lstrip_ws s.
Proof.
  induction w as [|a w IH]; simpl; [reflexivity|].
  intros H. apply andb_true_iff in H. destruct H as [Ha Hw].
  rewrite Ha. now apply IH.
Qed.

Lemma lstrip_ws_trimmed (s : string) :
  match PyStr.first_char s with
  | Some a => negb (isspace a)
  | None => true
  end = true ->
  lstrip_ws s = s.
Proof.
  destruct s as [|a s]; simpl; [reflexivity|].
  intros H. apply negb_true_iff in H. now rewrite H.
Qed.

Lemma rstrip_ws_spaces (w : string) : all_space w = true -> rstrip_ws w = "".
Proof.
  induction w as [|a w IH]; simpl; [reflexivity|].
  intros H. apply andb_true_iff in H. destruct H as [Ha Hw].
  now rewrite (IH Hw), Ha.
Qed.

Lemma rstrip_ws_trimmed (s : string) :
  match PyStr.last_char s with
  | Some a => negb (isspace a)
  | None => true
  end = true ->
  rstrip_ws s = s.
Proof.
  induction s as [|a s IH]; [reflexivity|].
  destruct s as [|b s'].
  - simpl. intros H. apply negb_true_iff in H. now rewrite H.
  - intros H. change (PyStr.last_char (String a (String b s')))
      with (PyStr.last_char (String b s')) in H.
    change (rstrip_ws (String a (String b s')))
      with (match rstrip_ws (String b s') with
            | EmptyString => if isspace a then EmptyString else String a EmptyString
            | r => String a r
            end).
    now rewrite (IH H).
Qed.

Lemma rstrip_ws_nonspace (a : ascii) (t : string) :
  isspace a = false -> rstrip_ws (String a t) = String a (rstrip_ws t).
Proof. intros H. simpl. destruct (rstrip_ws t); now rewrite ?H. Qed.

Lemma rstrip_ws_append_empty (s t : string) :
  rstrip_ws t = "" -> rstrip_ws (s ++ t) = rstrip_ws s.
Proof.
  intros H. induction s as [|a s IH]; simpl; [exact H | now rewrite IH].
Qed.

Lemma rstrip_ws_append_kept (s t : string) :
  rstrip_ws t <> "" -> rstrip_ws (s ++ t) = s ++ rstrip_ws t.
Proof.
  intros H. induction s as [|a s IH]; simpl; [reflexivity|].
  rewrite IH. destruct s as [|b s]; simpl; [|reflexivity].
  destruct (rstrip_ws t); [now elim H | reflexivity].
Qed.

Lemma contains_append (c : ascii) (s t : string) :
  contains c (s ++ t) = contains c s || contains c t.
Proof.
  induction s as [|a s IH]; simpl; [reflexivity|].
  now rewrite IH, orb_assoc.
Qed.

Lemma contains_spaces (c : ascii) (w : string) :
  isspace c = false -> all_space w = true -> contains c w = false.
Proof.
  intros Hc. induction w as [|a w IH]; simpl; [reflexivity|].
  intros H. apply andb_true_iff in H. destruct H as [Ha Hw].
  rewrite (IH Hw), orb_false_r.
  destruct (Ascii.eqb_spec a c); [congruence | reflexivity].
Qed.

Lemma split1_at_first (c : ascii) (k r : string) :
  contains c k = false -> split1 c (k ++ String c r) = (k, r).
Proof.
  induction k as [|a k IH]; simpl.
  - now rewrite Ascii.eqb_refl.
  - intros H. apply orb_false_iff in H. destruct H as [Ha Hk].
    now rewrite Ha, (IH Hk).
Qed.

(** Whether a string starts with ["#"] is decided by its first character. *)
Lemma startswith_hash_cons (a : ascii) (s t : string) :
  PyStr.startswith (String a s) "#" = PyStr.startswith (String a t) "#".
Proof.
  unfold PyStr.startswith.
  change (prefix "#" (String a s))
    with (if ascii_dec "#" a then prefix "" s else false).
  change (prefix "#" (String a t))
    with (if ascii_dec "#" a then prefix "" t else false).
  destruct (ascii_dec "#" a); [now destruct s, t | reflexivity].
Qed.

(** Stripping does not bring in a character. *)
Lemma contains_lstrip_ws (c : ascii) (s : string) :
  contains c s = false -> contains c (lstrip_ws s) = false.
Proof.
  induction s as [|a s IH]; simpl; [reflexivity|].
  intros H. apply orb_false_iff in H. destruct H as [Ha Hs].
  destruct (isspace a); [now apply IH|]. simpl. now rewrite Ha, Hs.
Qed.

Lemma contains_rstrip_ws (c : ascii) (s : string) :
  contains c s = false -> contains c (rstrip_ws s) = false.
Proof.
  induction s as [|a s IH]; simpl; [reflexivity|].
  intros H. apply orb_false_iff in H. destruct H as [Ha Hs].
  specialize (IH Hs). destruct (rstrip_ws s) as [|b r].
  - destruct (isspace a); simpl; [reflexivity | now rewrite Ha].
  - change (contains c (String a (String b r)))
      with (Ascii.eqb a c || contains c (String b r)).
    now rewrite Ha, IH.
Qed.

(** The stripped value part of an assignment. *)
Lemma strip_value (w3 v w4 : string) :
  all_space w3 = true -> all_space w4 = true -> trimmed v = true ->
  strip (rstrip_ws (w3 ++ v ++ w4)) = v.
Proof.
  intros H3 H4 Hv. unfold trimmed in Hv. apply andb_true_iff in Hv.
  destruct Hv as [Hfirst Hlast].
  assert (E : rstrip_ws (v ++ w4) = v).
  { rewrite rstrip_ws_append_empty by now apply rstrip_ws_spaces.
    now apply rstrip_ws_trimmed. }
  destruct v as [|a v'].
  - rewrite rstrip_ws_append_empty by exact E.
    now rewrite rstrip_ws_spaces.
  - rewrite rstrip_ws_append_kept by (rewrite E; discriminate).
    rewrite E. unfold strip. rewrite lstrip_ws_spaces by assumption.
    rewrite lstrip_ws_trimmed by assumption.
    now apply rstrip_ws_trimmed.
Qed.

(** Writing a variable, then reading one. *)
Lemma environ_get_setitem (environ environ' : list (string * string))
    (k v key : string) :
  environ_setitem environ k v = Some environ' ->
  environ_get environ' key
  = if String.eqb k key then Some v else environ_get environ key.
Proof.
  unfold environ_setitem.
  destruct (String.eqb k "" || contains nul k || contains nul v); [discriminate|].
  intros E. inversion E. subst environ'. clear E. simpl.
  destruct (String.eqb_spec k key) as [Hk|Hk]; [reflexivity|].
  induction environ as [|[k' v'] e IH]; simpl; [reflexivity|].
  destruct (String.eqb_spec k' k) as [E1|E1]; simpl.
  - subst k'. destruct (String.eqb_spec k key); [contradiction | exact IH].
  - now rewrite IH.
Qed.

(** Reading a variable after the loop. *)
Lemma environ_get_load_lines (lines : list string)
    (environ environ' : list (string * string)) (key : string) :
  load_lines lines environ = Some environ' ->
  environ_get environ' key = assigned key lines (environ_get environ key).
Proof.
  revert environ. induction lines as [|line rest IH]; intros environ; simpl.
  - intros E. now inversion E.
  - unfold load_line. destruct (assignment line) as [[k v]|].
    + destruct (environ_setitem environ k v) as [e1|] eqn:Hset; [|discriminate].
      intros E. rewrite (IH e1 E), (environ_get_setitem environ e1 k v key Hset).
      now destruct (String.eqb k key).
    + apply IH.
Qed.

End DotEnvFacts.

(** X17: a line [KEY=VALUE] assigns [VALUE] to [KEY] whatever white space
    surrounds the line, the key or the value; the line is cut at the first
    equals sign, so that the value may hold others. *)
Theorem X17_env_line_assignment (k v w1 w2 w3 w4 : string) :
  k <> "" -> trimmed k = true ->
  PyStr.startswith k "#" = false -> DotEnv.contains "=" k = false ->
  trimmed v = true ->
  all_space w1 = true -> all_space w2 = true ->
  all_space w3 = true -> all_space w4 = true ->
  DotEnv.assignment (w1 ++ k ++ w2 ++ "=" ++ w3 ++ v ++ w4) = Some (k, v).
Proof.
  intros Hne Hk Hhash Heq Hv H1 H2 H3 H4.
  pose proof Hk as Hk'. unfold trimmed in Hk'. apply andb_true_iff in Hk'.
  destruct Hk' as [Hfirst Hlast].
  destruct k as [|a k']; [now elim Hne|]. clear Hne.
  assert (Ha : DotEnv.isspace a = false) by now apply negb_true_iff in Hfirst.
  set (k := String a k') in *.
  assert (Hstrip : DotEnv.strip (w1 ++ k ++ w2 ++ "=" ++ w3 ++ v ++ w4)
                   = (k ++ w2) ++ String "=" (DotEnv.rstrip_ws (w3 ++ v ++ w4))).
  { unfold DotEnv.strip. rewrite lstrip_ws_spaces by assumption.
    assert (L : DotEnv.lstrip_ws (k ++ w2 ++ "=" ++ w3 ++ v ++ w4)
                = k ++ w2 ++ "=" ++ w3 ++ v ++ w4).
    { unfold k. simpl. now rewrite Ha. }
    rewrite L.
    assert (R : DotEnv.rstrip_ws ("=" ++ w3 ++ v ++ w4)
                = String "=" (DotEnv.rstrip_ws (w3 ++ v ++ w4))).
    { apply rstrip_ws_nonspace. reflexivity. }
    rewrite <- append_assoc.
    rewrite rstrip_ws_append_kept by (rewrite R; discriminate).
    now rewrite R. }
  unfold DotEnv.assignment. rewrite Hstrip.
  assert (Hcond : PyStr.truthy ((k ++ w2) ++ String "=" (DotEnv.rstrip_ws (w3 ++ v ++ w4)))
                  && negb (PyStr.startswith
                             ((k ++ w2) ++ String "=" (DotEnv.rstrip_ws (w3 ++ v ++ w4)))
                             "#")
                  && DotEnv.contains "="
                       ((k ++ w2) ++ String "=" (DotEnv.rstrip_ws (w3 ++ v ++ w4)))
                  = true).
  { rewrite contains_append. cbn [DotEnv.contains]. rewrite Ascii.eqb_refl.
    rewrite orb_true_r, andb_true_r.
    unfold k in *. cbn [append].
    rewrite (startswith_hash_cons a _ k'), Hhash. reflexivity. }
  rewrite Hcond.
  rewrite split1_at_first
    by (rewrite contains_append, Heq; now apply contains_spaces).
  f_equal. f_equal.
  - unfold DotEnv.strip.
    assert (L : DotEnv.lstrip_ws (k ++ w2) = k ++ w2).
    { unfold k. simpl. now rewrite Ha. }
    rewrite L, rstrip_ws_append_empty by now apply rstrip_ws_spaces.
    now apply rstrip_ws_trimmed.
  - now apply strip_value.
Qed.

Lemma X17_env_line_witness :
  let tab := String (ascii_of_nat 9) "" in
  let newline := String (ascii_of_nat 10) "" in
  DotEnv.assignment
    ("  " ++ "DEFAULT_OPENWEBUI_URL" ++ tab ++ "=" ++ " " ++ "http://h/?a=b c"
          ++ newline)
  = Some ("DEFAULT_OPENWEBUI_URL", "http://h/?a=b c").
Proof.
  intros tab newline.
  apply (X17_env_line_assignment "DEFAULT_OPENWEBUI_URL" "http://h/?a=b c"
           "  " tab " " newline);
    [discriminate | reflexivity | reflexivity | reflexivity | reflexivity
    | reflexivity | reflexivity | reflexivity | reflexivity].
Defined.

Section DotEnvLines.

Import DotEnv.

Lemma lstrip_ws_all_space (w : string) : all_space w = true -> lstrip_ws w = "".
Proof.
  induction w as [|a w IH]; simpl; [reflexivity|].
  intros H. apply andb_true_iff in H. destruct H as [Ha Hw].
  rewrite Ha. now apply IH.
Qed.

(** A line that assigns nothing leaves the environment as it is. *)
Lemma load_line_skips (environ : list (string * string)) (line : string) :
  assignment line = None -> load_line environ line = Some environ.
Proof. intros E. unfold load_line. now rewrite E. Qed.

(** The lines that do not assign [key] do not change what it is given. *)
Lemma assigned_untouched (key : string) (lines : list string)
    (before : option string) :
  (forall line v, In line lines -> assignment line <> Some (key, v)) ->
  assigned key lines before = before.
Proof.
  induction lines as [|line rest IH]; simpl; [reflexivity|].
  intros H. assert (Hrest : forall l v, In l rest -> assignment l <> Some (key, v))
    by (intros l v Hl; apply H; now right).
  destruct (assignment line) as [[k v]|] eqn:E; [|now apply IH].
  destruct (String.eqb_spec k key) as [->|]; [|now apply IH].
  elim (H line v); [now left | exact E].
Qed.

Lemma assigned_append (key : string) (pre rest : list string)
    (before : option string) :
  assigned key (pre ++ rest)%list before
  = assigned key rest (assigned key pre before).
Proof.
  revert before. induction pre as [|line pre IH]; intros before; simpl;
    [reflexivity|].
  destruct (assignment line) as [[k v]|]; [|apply IH].
  destruct (String.eqb k key); apply IH.
Qed.

(** What [key] is given when [line] is the last line that assigns it. *)
Lemma assigned_last (key v : string) (pre post : list string) (line : string)
    (before : option string) :
  assignment line = Some (key, v) ->
  (forall l v', In l post -> assignment l <> Some (key, v')) ->
  assigned key (pre ++ line :: post)%list before = Some v.
Proof.
  intros E Hpost. rewrite assigned_append. simpl.
  rewrite E, String.eqb_refl. now apply assigned_untouched.
Qed.

End DotEnvLines.

(** X18: blank lines, comment lines (a ["#"] after optional white space,
    even with an equals sign further on) and lines without an equals sign
    leave the environment as it is. *)
Theorem X18_env_line_ignored
    (environ : list (string * string)) (line : string) :
  all_space line = true
  \/ (exists w rest, all_space w = true /\ line = w ++ "#" ++ rest)
  \/ DotEnv.contains "=" line = false ->
  DotEnv.load_line environ line = Some environ.
Proof.
  intros H. apply load_line_skips. unfold DotEnv.assignment.
  destruct H as [H | [(w & rest & Hw & ->) | H]].
  - unfold DotEnv.strip. now rewrite lstrip_ws_all_space.
  - assert (E : DotEnv.strip (w ++ "#" ++ rest)
                = String "#" (DotEnv.rstrip_ws rest)).
    { unfold DotEnv.strip. rewrite lstrip_ws_spaces by assumption.
      change (DotEnv.lstrip_ws ("#" ++ rest)) with (String "#" rest).
      now apply rstrip_ws_nonspace. }
    rewrite E.
    assert (S : PyStr.startswith (String "#" (DotEnv.rstrip_ws rest)) "#" = true)
      by (rewrite (startswith_hash_cons _ _ ""); reflexivity).
    rewrite S. cbn [negb]. now rewrite andb_false_r.
  - assert (E : DotEnv.contains "=" (DotEnv.strip line) = false).
    { unfold DotEnv.strip. now apply contains_rstrip_ws, contains_lstrip_ws. }
    rewrite E. now rewrite andb_false_r.
Qed.

Lemma X18_env_line_ignored_witness :
  let environ := [ ("HOME", "/root") ] in
  let line := "   # OPENWEBUI_API_KEY=sk-disabled" in
  (exists w rest, all_space w = true /\ line = w ++ "#" ++ rest)
  /\ DotEnv.load_line environ line = Some environ.
Proof.
  intros environ line.
  assert (H : exists w rest, all_space w = true /\ line = w ++ "#" ++ rest).
  { exists "   ", " OPENWEBUI_API_KEY=sk-disabled". now split. }
  split; [exact H|].
  apply (X18_env_line_ignored environ line). right. left. exact H.
Defined.

(** X19: a line whose first character after optional white space is the
    equals sign has an empty key: the assignment to the environment
    raises and the loading ends there. *)
Theorem X19_env_empty_key_raises
    (environ : list (string * string)) (w rest : string)
    (later : list string) :
  all_space w = true ->
  DotEnv.load_line environ (w ++ "=" ++ rest) = None
  /\ DotEnv.load_lines ((w ++ "=" ++ rest) :: later) environ = None.
Proof.
  intros Hw.
  assert (L : DotEnv.load_line environ (w ++ "=" ++ rest) = None).
  { unfold DotEnv.load_line, DotEnv.assignment.
    assert (E : DotEnv.strip (w ++ "=" ++ rest)
                = String "=" (DotEnv.rstrip_ws rest)).
    { unfold DotEnv.strip. rewrite lstrip_ws_spaces by assumption.
      change (DotEnv.lstrip_ws ("=" ++ rest)) with (String "=" rest).
      now apply rstrip_ws_nonspace. }
    rewrite E. reflexivity. }
  split; [exact L|]. cbn [DotEnv.load_lines]. now rewrite L.
Qed.

Lemma X19_env_empty_key_witness :
  let environ := [ ("HOME", "/root") ] in
  all_space " " = true
  /\ DotEnv.load_line environ (" " ++ "=" ++ "value") = None
  /\ DotEnv.load_lines ((" " ++ "=" ++ "value") :: [ "A=1" ]) environ = None.
Proof.
  intros environ. split; [reflexivity|].
  apply (X19_env_empty_key_raises environ " " "value" [ "A=1" ]). reflexivity.
Defined.

(** X20: after the file is loaded, a variable holds the value of the last
    line that assigns it, also when the environment had the variable
    before; a variable that no line assigns keeps what it had. *)
Theorem X20_env_file_overrides
    (lines : list string) (environ environ' : list (string * string))
    (key : string) :
  DotEnv.load_lines lines environ = Some environ' ->
  (forall pre line post v,
     lines = (pre ++ line :: post)%list ->
     DotEnv.assignment line = Some (key, v) ->
     (forall l v', In l post -> DotEnv.assignment l <> Some (key, v')) ->
     environ_get environ' key = Some v)
  /\ ((forall l v', In l lines -> DotEnv.assignment l <> Some (key, v')) ->
      environ_get environ' key = environ_get environ key).
Proof.
  intros Hload. pose proof (environ_get_load_lines lines environ environ' key Hload) as E.
  split.
  - intros pre line post v -> Hline Hpost. rewrite E.
    now apply assigned_last.
  - intros Hnone. rewrite E. now apply assigned_untouched.
Qed.

Lemma X20_env_file_overrides_witness :
  let environ := [ ("OPENWEBUI_API_KEY", "sk-env"); ("HOME", "/root") ] in
  let environ' := [ ("OPENWEBUI_API_KEY", "sk-file");
                    ("DEFAULT_OPENWEBUI_URL", "https://host/?a=b");
                    ("HOME", "/root") ] in
  DotEnv.load_lines Sample2.env_lines environ = Some environ'
  /\ environ_get environ' "OPENWEBUI_API_KEY" = Some "sk-file"
  /\ environ_get environ' "HOME" = environ_get environ "HOME".
Proof.
  intros environ environ'. split; [reflexivity|].
  destruct (X20_env_file_overrides Sample2.env_lines environ environ'
              "OPENWEBUI_API_KEY" eq_refl) as [Hlast _].
  destruct (X20_env_file_overrides Sample2.env_lines environ environ'
              "HOME" eq_refl) as [_ Hkeep].
  split.
  - apply (Hlast (firstn 4 Sample2.env_lines) "OPENWEBUI_API_KEY=sk-file" []
             "sk-file"); [reflexivity | reflexivity | intros l v' []].
  - apply Hkeep. intros l v' Hin.
    cbn in Hin. repeat (destruct Hin as [<-|Hin]; [vm_compute; discriminate|]).
    elim Hin.
Defined.

(** X21: a non-empty OPENWEBUI_API_KEY of the file becomes the bearer
    token of every request sent upstream, before a token the environment
    had and before any X-API-Key header. *)
Theorem X21_env_file_token_is_bearer
    (rt : PyRuntime) (urlopen : Outbound -> Upstream) (h : Host)
    (pre post : list string) (line key : string)
    (environ' : list (string * string)) (req : Request) (out : Outbound) :
  DotEnv.load_env_file (Some (pre ++ line :: post)%list) (environ h)
  = Some environ' ->
  DotEnv.assignment line = Some ("OPENWEBUI_API_KEY", key) -> key <> "" ->
  (forall l v', In l post ->
     DotEnv.assignment l <> Some ("OPENWEBUI_API_KEY", v')) ->
  In out (outbound_calls urlopen (mkHost environ' (webchat_html h)) req) ->
  resolve_api_key (mkHost environ' (webchat_html h)) req = inr key
  /\ headers_get (out_headers out) "Authorization" = Some ("Bearer " ++ key).
Proof.
  intros Hload Hline Hne Hpost Hin. cbn [DotEnv.load_env_file] in Hload.
  assert (Hget : environ_get environ' "OPENWEBUI_API_KEY" = Some key).
  { rewrite (environ_get_load_lines _ _ _ "OPENWEBUI_API_KEY" Hload).
    now apply assigned_last. }
  assert (K : resolve_api_key (mkHost environ' (webchat_html h)) req = inr key)
    by now apply server_key_wins.
  split; [exact K|].
  destruct (sent_upstream urlopen _ req out Hin) as (k & u & _ & _ & Hk & _ & Hb & _).
  apply build_request_fields in Hb. destruct Hb as [_ ->].
  rewrite K in Hk. inversion Hk. reflexivity.
Qed.

Lemma X21_env_file_token_witness :
  let urlopen := Sample.upstream_ok in
  let h := mkHost [ ("OPENWEBUI_API_KEY", "sk-env") ] None in
  let environ' := [ ("OPENWEBUI_API_KEY", "sk-file");
                    ("DEFAULT_OPENWEBUI_URL", "https://host/?a=b") ] in
  let req := mkRequest GET "/proxy/models" [ ("X-API-Key", "c2VjcmV0") ] "" in
  let out := mkOutbound "https://host/?a=b/models" None
               (proxy_headers "sk-file") "GET" in
  (DotEnv.load_env_file (Some Sample2.env_lines) (environ h) = Some environ'
   /\ In out (outbound_calls (rt := Sample.runtime) urlopen
                (mkHost environ' (webchat_html h)) req))
  /\ resolve_api_key (rt := Sample.runtime) (mkHost environ' (webchat_html h)) req
     = inr "sk-file"
  /\ headers_get (out_headers out) "Authorization"
     = Some ("Bearer " ++ "sk-file").
Proof.
  intros urlopen h environ' req out.
  split; [split; [reflexivity | now left]|].
  apply (X21_env_file_token_is_bearer Sample.runtime urlopen h
           (firstn 4 Sample2.env_lines) [] "OPENWEBUI_API_KEY=sk-file"
           "sk-file" environ' req out);
    [reflexivity | reflexivity | discriminate | intros l v' [] | now left].
Defined.

(** ** Cross-origin headers of the upstream *)

Section UpstreamCors.

Lemma lines_named_append (name : string) (hs1 hs2 : list header) :
  lines_named name (hs1 ++ hs2)%list
  = (lines_named name hs1 ++ lines_named name hs2)%list.
Proof. apply filter_app. Qed.

(** The relay loop keeps every line under a name that is not hop-by-hop. *)
Lemma lines_named_kept (name : string) (hs : list header) :
  hop_by_hop name = false ->
  lines_named name (filter (fun hv => negb (hop_by_hop (fst hv))) hs)
  = lines_named name hs.
Proof.
  intros Hname. unfold lines_named.
  induction hs as [|[k v] hs IH]; simpl; [reflexivity|].
  destruct (String.eqb_spec (PyStr.lower k) (PyStr.lower name)) as [E|E].
  - assert (Hk : hop_by_hop k = false).
    { unfold hop_by_hop in *. now rewrite E. }
    rewrite Hk. simpl. rewrite E, String.eqb_refl. now rewrite IH.
  - destruct (hop_by_hop k); simpl; [exact IH|].
    destruct (String.eqb_spec (PyStr.lower k) (PyStr.lower name));
      [contradiction | exact IH].
Qed.

End UpstreamCors.

(** X22: the relay does not merge cross-origin headers: the lines the
    upstream sends under Access-Control-Allow-Origin are all relayed, in
    order, and the handler's own line with ["*"] comes after them. *)
Theorem X22_upstream_cors_lines_kept
    (rt : PyRuntime) (urlopen : Outbound -> Upstream) (h : Host)
    (req : Request) (out : Outbound)
    (upstream_status : Z) (upstream_headers : list header)
    (upstream_body : string) :
  outbound_calls urlopen h req = [out] ->
  urlopen out = Answered upstream_status upstream_headers upstream_body ->
  lines_named "Access-Control-Allow-Origin"
    (response_headers (respond urlopen h req))
  = (lines_named "Access-Control-Allow-Origin" upstream_headers
       ++ [ ("Access-Control-Allow-Origin", "*") ])%list.
Proof.
  intros Hcalls Hup. unfold respond.
  rewrite (relayed rt urlopen h req out Hcalls), Hup.
  cbn [relay render response_headers].
  rewrite !lines_named_append, lines_named_kept by reflexivity.
  reflexivity.
Qed.

Lemma X22_upstream_cors_witness :
  let upstream_headers :=
    [ ("access-control-allow-origin", "https://app.example");
      ("Content-Type", "application/json") ] in
  let urlopen := fun _ : Outbound => Answered 200 upstream_headers "{}" in
  let h := Sample.keyed_host in
  let req := Sample.models_request in
  let out := mkOutbound "https://host/models" None
               (proxy_headers "sk-server") "GET" in
  (outbound_calls (rt := Sample.runtime) urlopen h req = [out]
   /\ urlopen out = Answered 200 upstream_headers "{}")
  /\ lines_named "Access-Control-Allow-Origin"
       (response_headers (respond (rt := Sample.runtime) urlopen h req))
     = [ ("access-control-allow-origin", "https://app.example");
         ("Access-Control-Allow-Origin", "*") ].
Proof.
  intros upstream_headers urlopen h req out. split; [split; reflexivity|].
  exact (X22_upstream_cors_lines_kept Sample.runtime urlopen h req out 200%Z
           upstream_headers "{}" eq_refl eq_refl).
Defined.
